(** * A shallow embedding of [hosts_manager/editor.py] (HostsEditor)

    Python [str] values are modelled as lists of Unicode code points
    ([pystr]); a Python [list] of lines as [list pystr].  The file system
    seen by the editor is the hosts file at [self.path] and its sibling
    backup [self.path + ".bak"]; everything printed or asked on the
    terminal is recorded, in order, in an event trace. *)

From Stdlib Require Import List String Ascii NArith ZArith Bool Lia.
Import ListNotations.

(* ------------------------------------------------------------------ *)
(** ** Python strings *)

Definition pychar := N.
Definition pystr := list pychar.

(** Literal helper: an ASCII Rocq string as a list of code points. *)
Definition u (s : string) : pystr :=
  map (fun a => N_of_ascii a) (list_ascii_of_string s).

Definition TAB : pychar := 9%N.
Definition LF : pychar := 10%N.
Definition CR : pychar := 13%N.
Definition SPACE : pychar := 32%N.
Definition HASH : pychar := 35%N.

Definition str_eqb (a b : pystr) : bool :=
  if list_eq_dec N.eq_dec a b then true else false.

Definition lines_eqb (a b : list pystr) : bool :=
  if list_eq_dec (list_eq_dec N.eq_dec) a b then true else false.

(** [str.isspace] for one code point (the characters CPython's
    [Py_UNICODE_ISSPACE] accepts); [str.strip()] and the regular
    expression class [\s] of a [str] pattern both use this set. *)
Definition is_space (c : pychar) : bool :=
  (((9 <=? c) && (c <=? 13)) || ((28 <=? c) && (c <=? 32))
  || (c =? 133) || (c =? 160) || (c =? 5760)
  || ((8192 <=? c) && (c <=? 8202))
  || (c =? 8232) || (c =? 8233) || (c =? 8239) || (c =? 8287)
  || (c =? 12288))%N.

(** The line boundaries of [str.splitlines]: \n \r \v \f \x1c \x1d \x1e
    \x85     (and the pair \r\n). *)
Definition is_linebreak (c : pychar) : bool :=
  (((10 <=? c) && (c <=? 13)) || ((28 <=? c) && (c <=? 30))
  || (c =? 133) || (c =? 8232) || (c =? 8233))%N.

Fixpoint lstrip_if (p : pychar -> bool) (s : pystr) : pystr :=
  match s with
  | c :: s' => if p c then lstrip_if p s' else s
  | [] => []
  end.

(** [s.strip()] *)
Definition py_strip (s : pystr) : pystr :=
  rev (lstrip_if is_space (rev (lstrip_if is_space s))).

(** [s.strip("#")] *)
Definition py_strip_hash (s : pystr) : pystr :=
  rev (lstrip_if (N.eqb HASH) (rev (lstrip_if (N.eqb HASH) s))).

(** [s.startswith(p)] *)
Fixpoint startswith (s p : pystr) {struct p} : bool :=
  match p, s with
  | [], _ => true
  | c :: p', d :: s' => N.eqb c d && startswith s' p'
  | _ :: _, [] => false
  end.

(** [s.endswith(p)] *)
Definition endswith (s p : pystr) : bool := startswith (rev s) (rev p).

(** [sub in s] for two strings. *)
Fixpoint contains (sub s : pystr) : bool :=
  startswith s sub || match s with [] => false | _ :: s' => contains sub s' end.

(** [s.split("#")[0]] *)
Fixpoint before_hash (s : pystr) : pystr :=
  match s with
  | [] => []
  | c :: s' => if N.eqb c HASH then [] else c :: before_hash s'
  end.

(** [s[1:]] *)
Definition drop1 (s : pystr) : pystr := tl s.

(** Truth value of a [str]: non-empty. *)
Definition truthy_str (s : pystr) : bool :=
  match s with [] => false | _ => true end.

Definition digits : list pychar := [48;49;50;51;52;53;54;55;56;57]%N.

(** ["\n".join(ls)] *)
Fixpoint join_nl (ls : list pystr) : pystr :=
  match ls with
  | [] => []
  | [l] => l
  | l :: ls' => l ++ LF :: join_nl ls'
  end.

(** [s.splitlines()]: [cur] is the current line, reversed. *)
Fixpoint splitlines_from (cur : pystr) (s : pystr) : list pystr :=
  match s with
  | [] => match cur with [] => [] | _ => [rev cur] end
  | c :: s' =>
      if N.eqb c CR then
        match s' with
        | d :: s'' => if N.eqb d LF then rev cur :: splitlines_from [] s''
                      else rev cur :: splitlines_from [] s'
        | [] => [rev cur]
        end
      else if is_linebreak c then rev cur :: splitlines_from [] s'
      else splitlines_from (c :: cur) s'
  end.

Definition splitlines (s : pystr) : list pystr := splitlines_from [] s.

(** Text-mode reading with universal newlines ([newline=None]): \r\n and
    a lone \r both become \n. *)
Fixpoint universal_newlines (s : pystr) : pystr :=
  match s with
  | [] => []
  | c :: s' =>
      if N.eqb c CR then
        match s' with
        | d :: s'' => if N.eqb d LF then LF :: universal_newlines s''
                      else LF :: universal_newlines s'
        | [] => [LF]
        end
      else c :: universal_newlines s'
  end.

(** [Path.write_text] on a POSIX system writes the text as it is. *)
Definition written_text (ls : list pystr) : pystr := join_nl ls ++ [LF].

(** [_read_file]: [self.path.read_text().splitlines()] *)
Definition read_lines (text : pystr) : list pystr :=
  splitlines (universal_newlines text).

(* ------------------------------------------------------------------ *)
(** ** Editor state and effects *)

(** What the editor prints.  [MsgProposedChanges old new] stands for the
    "Proposed changes" banner followed by the coloured unified diff of
    [old] against [new]. *)
Inductive msg :=
| MsgNoChangesToApply
| MsgProposedChanges (old new : list pystr)
| MsgChangesDiscarded
| MsgChangesApplied (backup_path : pystr)
| MsgLine (lineno : nat) (line : pystr)
| MsgNoEntryFound (hostname : pystr)
| MsgNoActiveEntry (hostname : pystr)
| MsgNoCommentedEntry (hostname : pystr)
| MsgNoResults (query : option pystr)
| MsgSectionsFound (sections : list (pystr * list pystr))
| MsgNoSectionsFound
| MsgSectionNotFound (section : pystr)
| MsgNoChangesForSite (site section : pystr)
| MsgNoChangesForSection (section : pystr)
| MsgDisabledSummary (count : Z) (section : pystr) (site : option pystr)
| MsgEnabledSummary (count : Z) (section : pystr) (site : option pystr).

(** Observable effects, in the order they happen. *)
Inductive event :=
| EPrint (m : msg)
| EInput                               (* input("Apply these changes? [y/N]: ") *)
| ECopy (src dst : pystr)               (* shutil.copy2 *)
| EWrite (path text : pystr).           (* Path.write_text *)

Record state := mkState {
  path : pystr;                  (* self.path *)
  disk : pystr;                  (* content of the file at self.path *)
  backup : option pystr;         (* content of the file at self.path + ".bak" *)
  lines : list pystr;            (* self.lines, the editing baseline *)
  trace : list event
}.

Definition emit (m : msg) (st : state) : state :=
  mkState (path st) (disk st) (backup st) (lines st) (trace st ++ [EPrint m]).

Definition record_input (st : state) : state :=
  mkState (path st) (disk st) (backup st) (lines st) (trace st ++ [EInput]).

Definition backup_path (st : state) : pystr := path st ++ u ".bak".

(** [copy2(self.path, backup_path)] *)
Definition copy_backup (st : state) : state :=
  mkState (path st) (disk st) (Some (disk st)) (lines st)
          (trace st ++ [ECopy (path st) (backup_path st)]).

(** [self.path.write_text(text)] *)
Definition write_text (text : pystr) (st : state) : state :=
  mkState (path st) text (backup st) (lines st)
          (trace st ++ [EWrite (path st) text]).

Definition set_lines (ls : list pystr) (st : state) : state :=
  mkState (path st) (disk st) (backup st) ls (trace st).

(** Return values of Python functions that matter to callers. *)
Inductive pyval := PNone | PInt (n : Z).

Definition truthy (v : pyval) : bool :=
  match v with PNone => false | PInt n => negb (Z.eqb n 0) end.

(** Exceptions raised by the modelled code. *)
Inductive exn := TypeError.

Inductive result (A : Type) := Ok (a : A) | Raise (e : exn).
Arguments Ok {A} a.
Arguments Raise {A} e.

(** Python's [x or y] on two lists: [x] unless it is empty. *)
Definition list_or {A} (x y : list A) : list A :=
  match x with [] => y | _ => x end.

Section Editor.

(** Unicode case mappings [str.lower], [str.upper] and the predicate
    [str.isupper]; the theorems below hold for any choice of them. *)
Variable py_lower : pystr -> pystr.
Variable py_upper : pystr -> pystr.
Variable py_isupper : pystr -> bool.

(** [_show_diff] decides on [list(difflib.unified_diff(self.lines,
    new_lines, ...))] being empty, which happens exactly when the two
    sequences are equal (a single "equal" opcode yields no group). *)
Definition show_diff (new_lines : list pystr) (st : state) : bool * state :=
  if lines_eqb (lines st) new_lines then (false, emit MsgNoChangesToApply st)
  else (true, emit (MsgProposedChanges (lines st) new_lines) st).

(** [input(...).strip().lower() != "y"] fails, for the answer [ans]. *)
Definition confirms (ans : pystr) : bool := str_eqb (py_lower (py_strip ans)) (u "y").

(** [_write_file(new_lines)]; [ans] is what [input] returns. *)
Definition write_file (ans : pystr) (new_lines0 : list pystr) (st : state) : state :=
  let new_lines := list_or new_lines0 (lines st) in
  let (has_changes, st) := show_diff new_lines st in
  if negb has_changes then st
  else
    let st := record_input st in
    if negb (confirms ans) then emit MsgChangesDiscarded st
    else
      let bp := backup_path st in
      let st := copy_backup st in
      let st := write_text (written_text new_lines) st in
      let st := set_lines new_lines st in
      emit (MsgChangesApplied bp) st.

(** [_find_section_index(section)] *)
Fixpoint find_section_index_from (section : pystr) (idx : nat) (ls : list pystr)
  : option nat :=
  match ls with
  | [] => None
  | l :: ls' =>
      if str_eqb (py_lower (py_strip l)) (py_lower (u "# " ++ section)) then Some idx
      else find_section_index_from section (S idx) ls'
  end.

Definition find_section_index (section : pystr) (st : state) : option nat :=
  find_section_index_from section 0 (lines st).

(** [list.insert(i, x)] *)
Definition list_insert {A} (i : nat) (x : A) (l : list A) : list A :=
  firstn i l ++ x :: skipn i l.

(** The entry line built by [add_entry]. *)
Definition entry_line (ip hostname : pystr) (comment : option pystr) : pystr :=
  let entry := ip ++ TAB :: hostname in
  match comment with
  | Some c => if truthy_str c then entry ++ u "  # " ++ c else entry
  | None => entry
  end.

(** [new_lines] as computed by [add_entry] before [_write_file]. *)
Definition add_entry_lines (ip hostname : pystr) (section comment : option pystr)
    (st : state) : list pystr :=
  let new_lines := lines st in
  let entry := entry_line ip hostname comment in
  match section with
  | Some s =>
      if truthy_str s then
        match find_section_index s st with
        | None => new_lines ++ [LF :: u "# " ++ s; entry]
        | Some idx => list_insert (S idx) entry new_lines
        end
      else new_lines ++ [entry]
  | None => new_lines ++ [entry]
  end.

Definition add_entry (ans ip hostname : pystr) (section comment : option pystr)
    (st : state) : state :=
  write_file ans (add_entry_lines ip hostname section comment st) st.

(** [delete_entry(hostname)] *)
Definition delete_entry (ans hostname : pystr) (st : state) : state :=
  let new_lines := filter (fun l => negb (contains hostname l)) (lines st) in
  if lines_eqb new_lines (lines st) then emit (MsgNoEntryFound hostname) st
  else write_file ans new_lines st.

(** The per-line step of [comment_entry]: the new line and whether it
    was changed ([updated = True]). *)
Definition comment_line (hostname l : pystr) : pystr * bool :=
  if contains hostname l && negb (startswith (py_strip l) [HASH])
  then (HASH :: SPACE :: l, true)
  else (l, false).

Definition comment_entry (ans hostname : pystr) (st : state) : state :=
  let res := map (comment_line hostname) (lines st) in
  if existsb snd res then write_file ans (map fst res) st
  else emit (MsgNoActiveEntry hostname) st.

(** [re.sub(r"^#\s*", "", line)]: the pattern is anchored at the start and
    [\s*] is greedy, so it removes one leading ['#'] and every whitespace
    character that follows it. *)
Definition re_sub_hash (l : pystr) : pystr :=
  match l with
  | c :: r => if N.eqb c HASH then lstrip_if is_space r else l
  | [] => []
  end.

(** The per-line step of [uncomment_entry]. *)
Definition uncomment_line (hostname l : pystr) : pystr * bool :=
  if contains hostname l && startswith (py_strip l) [HASH]
  then (re_sub_hash l, true)
  else (l, false).

Definition uncomment_entry (ans hostname : pystr) (st : state) : state :=
  let res := map (uncomment_line hostname) (lines st) in
  if existsb snd res then write_file ans (map fst res) st
  else emit (MsgNoCommentedEntry hostname) st.

(** [query in line] with [query] possibly [None]: [None in "..."] raises
    [TypeError: 'in <string>' requires string as left operand]. *)
Definition py_in (query : option pystr) (line : pystr) : result bool :=
  match query with
  | None => Raise TypeError
  | Some q => Ok (contains q line)
  end.

(** The loop of [search_entries]: [i] is the 1-based line number. *)
Fixpoint search_loop (query : option pystr) (i : nat) (ls : list pystr)
    (found : bool) (st : state) : result (bool * state) :=
  match ls with
  | [] => Ok (found, st)
  | l :: ls' =>
      match py_in query l with
      | Raise e => Raise e
      | Ok true => search_loop query (S i) ls' true (emit (MsgLine i l) st)
      | Ok false => search_loop query (S i) ls' found st
      end
  end.

Definition search_entries (query : option pystr) (st : state) : result state :=
  match search_loop query 1 (lines st) false st with
  | Raise e => Raise e
  | Ok (found, st') => Ok (if found then st' else emit (MsgNoResults query) st')
  end.

(** [s.startswith("#") and s.endswith("#") and len(s) > 2] on a stripped
    line: the shape of a section header. *)
Definition header_shaped (t : pystr) : bool :=
  startswith t [HASH] && endswith t [HASH] && (2 <? List.length t)%nat.

Definition starts_with_digit (s : pystr) : bool :=
  existsb (fun d => startswith s [d]) digits.

(** [list_sections], lines 89-93: the site name a non-header stripped
    line [t] contributes (when a section is current). *)
Definition list_sections_site (t : pystr) : option pystr :=
  if startswith t [HASH] && negb (startswith t [HASH; HASH]) then
    let site_name := py_strip (before_hash (drop1 t)) in
    if truthy_str site_name && negb (starts_with_digit site_name)
    then Some site_name else None
  else None.

Definition truthy_opt (o : option pystr) : bool :=
  match o with Some s => truthy_str s | None => false end.

(** Loop state of [list_sections]: [sections], [current_section],
    [current_sites]. *)
Definition ls_state : Type := (list (pystr * list pystr) * option pystr * list pystr)%type.

Definition list_sections_step (acc : ls_state) (line : pystr) : ls_state :=
  let '(sections, current_section, current_sites) := acc in
  let t := py_strip line in
  if header_shaped t then
    let section_name := py_strip (py_strip_hash t) in
    if truthy_str section_name && py_isupper section_name then
      match current_section with
      | Some cs => if truthy_str cs
                   then (sections ++ [(cs, current_sites)], Some section_name, [])
                   else (sections, Some section_name, current_sites)
      | None => (sections, Some section_name, current_sites)
      end
    else acc
  else
    match list_sections_site t with
    | Some site_name =>
        if truthy_opt current_section
        then (sections, current_section, current_sites ++ [site_name])
        else acc
    | None => acc
    end.

Definition list_sections_result (ls : list pystr) : list (pystr * list pystr) :=
  let '(sections, current_section, current_sites) :=
    fold_left list_sections_step ls ([], None, []) in
  match current_section with
  | Some cs => if truthy_str cs then sections ++ [(cs, current_sites)] else sections
  | None => sections
  end.

Definition list_sections (st : state) : state :=
  match list_sections_result (lines st) with
  | [] => emit MsgNoSectionsFound st
  | sections => emit (MsgSectionsFound sections) st
  end.

(** The name a line contributes as a section header in [list_sections]:
    a header-shaped stripped line whose name is non-empty and upper case. *)
Definition header_name (line : pystr) : list pystr :=
  let t := py_strip line in
  if header_shaped t then
    let section_name := py_strip (py_strip_hash t) in
    if truthy_str section_name && py_isupper section_name then [section_name] else []
  else [].

Definition section_names (ls : list pystr) : list pystr := flat_map header_name ls.

(** What the loop of [list_sections] keeps true: a current section, once
    set, has a non-empty name. *)
Definition ls_inv (acc : ls_state) : Prop :=
  match acc with
  | (_, Some cs, _) => truthy_str cs = true
  | (_, None, _) => True
  end.

(** The list [list_sections] ends with, from a loop state (lines 101-102). *)
Definition ls_final (acc : ls_state) : list (pystr * list pystr) :=
  let '(sections, current_section, current_sites) := acc in
  match current_section with
  | Some cs => if truthy_str cs then sections ++ [(cs, current_sites)] else sections
  | None => sections
  end.

(** [toggle_section], lines 175-181: index of the first header-shaped line
    whose name is [target] ([section.upper()]). *)
Fixpoint find_header_from (target : pystr) (i : nat) (ls : list pystr) : option nat :=
  match ls with
  | [] => None
  | l :: ls' =>
      let t := py_strip l in
      if header_shaped t && str_eqb (py_strip (py_strip_hash t)) target then Some i
      else find_header_from target (S i) ls'
  end.

(** [toggle_section], line 200: [s.startswith("#") and not any(s.startswith(f"# {d}") ...)] *)
Definition toggle_site_test (t : pystr) : bool :=
  startswith t [HASH] && negb (existsb (fun d => startswith t [HASH; SPACE; d]) digits).

(** The site name that line 201 assigns to [current_site], if any. *)
Definition toggle_site (t : pystr) : option pystr :=
  if toggle_site_test t then Some (py_strip (before_hash (drop1 t))) else None.

(** [site is None or (current_site and current_site == site)] *)
Definition site_selected (site current_site : option pystr) : bool :=
  match site with
  | None => true
  | Some s => truthy_opt current_site && match current_site with
                                         | Some c => str_eqb c s
                                         | None => false
                                         end
  end.

(** The loop over [range(start_idx + 1, len(new_lines))]: the lines of the
    range as rewritten (the rest from a [break] on unchanged) and
    [updated]. *)
Fixpoint toggle_walk (site : option pystr) (enable : bool) (current_site : option pystr)
    (ls : list pystr) : list pystr * nat :=
  match ls with
  | [] => ([], 0%nat)
  | line :: ls' =>
      let t := py_strip line in
      if header_shaped t then (ls, 0%nat)
      else match toggle_site t with
      | Some name =>
          let '(rest, n) := toggle_walk site enable (Some name) ls' in (line :: rest, n)
      | None =>
          let '(rest, n) := toggle_walk site enable current_site ls' in
          if negb (truthy_str t) || toggle_site_test t then (line :: rest, n)
          else if site_selected site current_site then
            if enable && startswith t [HASH] then (re_sub_hash line :: rest, S n)
            else if negb enable && negb (startswith t [HASH])
            then ((HASH :: SPACE :: line) :: rest, S n)
            else (line :: rest, n)
          else (line :: rest, n)
      end
  end.

Definition toggle_section (ans section : pystr) (site : option pystr) (enable : bool)
    (st : state) : pyval * state :=
  match find_header_from (py_upper section) 0 (lines st) with
  | None => (PInt 0, emit (MsgSectionNotFound section) st)
  | Some start_idx =>
      let '(range', updated) := toggle_walk site enable None (skipn (S start_idx) (lines st)) in
      let new_lines := firstn (S start_idx) (lines st) ++ range' in
      if (0 <? updated)%nat then (PNone, write_file ans new_lines st)
      else (PNone, emit (if truthy_opt site
                         then MsgNoChangesForSite (match site with Some s => s | None => [] end) section
                         else MsgNoChangesForSection section) st)
  end.

(** [cli.disable_section] and [cli.enable_section]. *)
Definition cli_disable_section (ans section : pystr) (site : option pystr) (st : state) : state :=
  let '(updated, st') := toggle_section ans section site false st in
  if truthy updated then
    emit (MsgDisabledSummary (match updated with PInt n => n | PNone => 0%Z end) section site) st'
  else st'.

Definition cli_enable_section (ans section : pystr) (site : option pystr) (st : state) : state :=
  let '(updated, st') := toggle_section ans section site true st in
  if truthy updated then
    emit (MsgEnabledSummary (match updated with PInt n => n | PNone => 0%Z end) section site) st'
  else st'.

End Editor.

(** ASCII case mappings: Python's [str.lower], [str.upper] and
    [str.isupper] agree with these on ASCII text, which is all the concrete
    inputs below use. *)
Definition ascii_lower (s : pystr) : pystr :=
  map (fun c => if ((65 <=? c) && (c <=? 90))%N then (c + 32)%N else c) s.

Definition ascii_upper (s : pystr) : pystr :=
  map (fun c => if ((97 <=? c) && (c <=? 122))%N then (c - 32)%N else c) s.

Definition ascii_isupper (s : pystr) : bool :=
  existsb (fun c => ((65 <=? c) && (c <=? 90))%N) s
  && negb (existsb (fun c => ((97 <=? c) && (c <=? 122))%N) s).

(** A freshly loaded editor: [HostsEditor(path)] on a file with [text]. *)
Definition load (p text : pystr) : state := mkState p text None (read_lines text) [].

(* ------------------------------------------------------------------ *)
(** ** Line predicates and example documents *)

(** A line as [splitlines] produces it: no line boundary inside. *)
Definition no_break (l : pystr) : Prop := forall c, In c l -> is_linebreak c = false.

(** A decision procedure for [no_break], to discharge it on literals. *)
Definition no_break_b (l : pystr) : bool := forallb (fun c => negb (is_linebreak c)) l.

(** Whether a line begins with a whitespace character. *)
Definition starts_with_space (l : pystr) : bool :=
  match l with c :: _ => is_space c | [] => false end.

Definition hosts_path : pystr := u "/etc/hosts".

(** The scenario of the spec: a section, a site and one entry. *)
Definition work_doc : list pystr :=
  [u "# WORK #"; u "# example.com"; u "127.0.0.1" ++ TAB :: u "example.com"].

Definition work_state : state := load hosts_path (written_text work_doc).

(** A one-line document whose only line mentions [foo.test]. *)
Definition foo_state : state :=
  load hosts_path (written_text [u "127.0.0.1" ++ TAB :: u "foo.test"]).

(** A section whose only line is an entry disabled without a space after
    the ['#']. *)
Definition tight_doc : list pystr :=
  [u "# WORK #"; u "#127.0.0.1" ++ TAB :: u "foo.test"].

Definition tight_state : state := load hosts_path (written_text tight_doc).

(** A disabled entry indented by two spaces. *)
Definition indented_state : state :=
  load hosts_path (written_text [u "  # 127.0.0.1" ++ TAB :: u "foo.test"]).

(** A section written by [add_entry] itself: ["# dev"]. *)
Definition dev_state : state :=
  load hosts_path (written_text [u "# dev"; u "10.0.0.1" ++ TAB :: u "a.test"]).

(** A line of a section body that [disable-section] followed by
    [enable-section] gives back: a blank line, a site comment, or an entry
    that starts with a digit (an IP address written at the start of the
    line) and does not end with ['#']. *)
Definition plain_body_line (l : pystr) : bool :=
  let t := py_strip l in
  negb (truthy_str t) || (negb (header_shaped t) && toggle_site_test t)
  || (starts_with_digit l && negb (endswith t [HASH])).

(** Two sections, each with one entry. *)
Definition two_doc : list pystr :=
  [u "# WORK #"; u "127.0.0.1" ++ TAB :: u "a.test";
   u "# HOME #"; u "10.0.0.1" ++ TAB :: u "b.test"].

Definition two_state : state := load hosts_path (written_text two_doc).

(* ------------------------------------------------------------------ *)
(** ** Reading back what was written *)

Lemma no_break_not_cr (l : pystr) : no_break l -> forall c, In c l -> c <> CR.
Proof. intros H c Hc ->. specialize (H CR Hc). discriminate. Qed.

Lemma universal_newlines_no_cr (s : pystr) :
  (forall c, In c s -> c <> CR) -> universal_newlines s = s.
Proof.
  induction s as [|c s IH]; intros H; [reflexivity|].
  simpl. destruct (N.eqb_spec c CR) as [E|E].
  - exfalso. apply (H c); [left|]; auto.
  - f_equal. apply IH. intros d Hd. apply H. right. exact Hd.
Qed.

Lemma splitlines_from_line (l rest cur : pystr) :
  no_break l ->
  splitlines_from cur (l ++ LF :: rest) = (rev cur ++ l) :: splitlines_from [] rest.
Proof.
  revert cur. induction l as [|a l IH]; intros cur H.
  - simpl. rewrite app_nil_r. reflexivity.
  - simpl. assert (Ha : is_linebreak a = false) by (apply H; left; reflexivity).
    assert (Hcr : N.eqb a CR = false).
    { apply N.eqb_neq. intros ->. discriminate. }
    rewrite Hcr, Ha. rewrite IH.
    + simpl. rewrite <- app_assoc. reflexivity.
    + intros c Hc. apply H. right. exact Hc.
Qed.

Lemma splitlines_written (ls : list pystr) :
  ls <> [] -> Forall no_break ls -> splitlines (written_text ls) = ls.
Proof.
  unfold written_text, splitlines.
  induction ls as [|l ls IH]; intros Hne Hf; [congruence|].
  inversion Hf as [|? ? Hl Hls]; subst.
  destruct ls as [|l2 ls].
  - simpl. rewrite (splitlines_from_line l [] [] Hl). reflexivity.
  - change (join_nl (l :: l2 :: ls)) with (l ++ LF :: join_nl (l2 :: ls)).
    rewrite <- app_assoc. simpl app at 2.
    rewrite (splitlines_from_line l _ [] Hl). simpl.
    f_equal. apply IH; [discriminate | exact Hls].
Qed.

Lemma written_text_no_cr (ls : list pystr) :
  Forall no_break ls -> forall c, In c (written_text ls) -> c <> CR.
Proof.
  unfold written_text. intros Hf c Hc.
  apply in_app_or in Hc as [Hc|[<-|[]]]; [|discriminate].
  induction ls as [|l ls IH]; [destruct Hc|].
  inversion Hf as [|? ? Hl Hls]; subst.
  destruct ls as [|l2 ls].
  - exact (no_break_not_cr l Hl c Hc).
  - change (join_nl (l :: l2 :: ls)) with (l ++ LF :: join_nl (l2 :: ls)) in Hc.
    apply in_app_or in Hc as [Hc|[<-|Hc]].
    + exact (no_break_not_cr l Hl c Hc).
    + discriminate.
    + exact (IH Hls Hc).
Qed.

(** Writing a non-empty list of lines and reading the file back. *)
Lemma read_lines_written (ls : list pystr) :
  ls <> [] -> Forall no_break ls -> read_lines (written_text ls) = ls.
Proof.
  intros Hne Hf. unfold read_lines.
  rewrite universal_newlines_no_cr by exact (written_text_no_cr ls Hf).
  apply splitlines_written; assumption.
Qed.

(* ------------------------------------------------------------------ *)
(** ** Helper lemmas on strings *)

Lemma lstrip_if_snoc (p : pychar -> bool) (x : pystr) (c : pychar) :
  p c = false -> lstrip_if p (x ++ [c]) = lstrip_if p x ++ [c].
Proof.
  intros Hc. induction x as [|a x IH]; simpl.
  - rewrite Hc. reflexivity.
  - destruct (p a); [exact IH | reflexivity].
Qed.

Lemma py_strip_cons (c : pychar) (s : pystr) :
  is_space c = false ->
  exists r, py_strip (c :: s) = c :: r.
Proof.
  intros Hc. unfold py_strip. simpl lstrip_if at 2. rewrite Hc. simpl rev at 2.
  rewrite lstrip_if_snoc by exact Hc. rewrite rev_app_distr. simpl.
  eexists. reflexivity.
Qed.

Lemma contains_cons (sub s : pystr) (c : pychar) :
  contains sub s = true -> contains sub (c :: s) = true.
Proof. intros H. simpl. rewrite H. apply orb_true_r. Qed.

Lemma lines_eqb_refl (ls : list pystr) : lines_eqb ls ls = true.
Proof. unfold lines_eqb. destruct (list_eq_dec (list_eq_dec N.eq_dec) ls ls); congruence. Qed.

Lemma lines_eqb_true (a b : list pystr) : lines_eqb a b = true -> a = b.
Proof. unfold lines_eqb. destruct (list_eq_dec (list_eq_dec N.eq_dec) a b); congruence. Qed.

Lemma lines_eqb_false (a b : list pystr) : a <> b -> lines_eqb a b = false.
Proof. unfold lines_eqb. destruct (list_eq_dec (list_eq_dec N.eq_dec) a b); congruence. Qed.

Lemma lstrip_if_no_space (l : pystr) :
  starts_with_space l = false -> lstrip_if is_space l = l.
Proof. destruct l as [|c l]; simpl; [reflexivity|]. intros ->. reflexivity. Qed.

(* ------------------------------------------------------------------ *)
(** ** Helper lemmas on the workflow and on written text *)

Lemma list_or_nil {A} (y : list A) : list_or [] y = y.
Proof. reflexivity. Qed.

Lemma list_or_cons {A} (x y : list A) : x <> [] -> list_or x y = x.
Proof. destruct x; [congruence | reflexivity]. Qed.

Lemma list_or_self {A} (y : list A) : list_or y y = y.
Proof. destruct y; reflexivity. Qed.

(** Confirmed commit of a proposal that differs from the baseline. *)
Lemma write_file_confirmed (py_lower : pystr -> pystr) (ans : pystr)
    (new_lines : list pystr) (st : state) :
  new_lines <> [] -> new_lines <> lines st -> confirms py_lower ans = true ->
  disk (write_file py_lower ans new_lines st) = written_text new_lines
  /\ backup (write_file py_lower ans new_lines st) = Some (disk st)
  /\ lines (write_file py_lower ans new_lines st) = new_lines.
Proof.
  intros Hne Hdiff Hc. unfold write_file, show_diff.
  rewrite (list_or_cons _ _ Hne).
  rewrite (lines_eqb_false (lines st) new_lines) by congruence.
  simpl. rewrite Hc. simpl. repeat split; reflexivity.
Qed.

Lemma no_break_nil : no_break [].
Proof. intros c []. Qed.

Lemma no_break_app (a b : pystr) : no_break a -> no_break b -> no_break (a ++ b).
Proof. intros Ha Hb c Hc. apply in_app_or in Hc as [Hc|Hc]; auto. Qed.

Lemma no_break_cons (c : pychar) (l : pystr) :
  is_linebreak c = false -> no_break l -> no_break (c :: l).
Proof. intros Hc Hl d [<-|Hd]; auto. Qed.

Lemma no_break_of_b (l : pystr) : no_break_b l = true -> no_break l.
Proof.
  intros H c Hc. unfold no_break_b in H. rewrite forallb_forall in H.
  specialize (H c Hc). destruct (is_linebreak c); [discriminate | reflexivity].
Qed.

Lemma Forall_no_break_of_b (ls : list pystr) :
  forallb no_break_b ls = true -> Forall no_break ls.
Proof.
  intros H. apply Forall_forall. intros l Hl. apply no_break_of_b.
  rewrite forallb_forall in H. exact (H l Hl).
Qed.

Lemma join_nl_cons (l : pystr) (ls : list pystr) :
  ls <> [] -> join_nl (l :: ls) = l ++ LF :: join_nl ls.
Proof. destruct ls; [congruence | reflexivity]. Qed.

Lemma join_nl_app (ls m : list pystr) :
  ls <> [] -> m <> [] -> join_nl (ls ++ m) = join_nl ls ++ LF :: join_nl m.
Proof.
  intros Hls Hm. induction ls as [|l ls IH]; [congruence|].
  simpl app. destruct ls as [|l2 ls].
  - simpl app. rewrite join_nl_cons by exact Hm. reflexivity.
  - rewrite (join_nl_cons l ((l2 :: ls) ++ m)) by discriminate.
    rewrite IH by discriminate.
    rewrite <- app_assoc. reflexivity.
Qed.

(** The element ["\n# SECTION"] is written as an empty line followed by
    ["# SECTION"]. *)
Lemma written_text_split_header (ls : list pystr) (x e : pystr) :
  written_text (ls ++ [LF :: x; e]) = written_text (ls ++ [[]; x; e]).
Proof.
  unfold written_text. destruct ls as [|l ls]; [reflexivity|].
  rewrite !join_nl_app by discriminate. reflexivity.
Qed.

Lemma no_break_entry_line (ip hostname : pystr) (comment : option pystr) :
  no_break ip -> no_break hostname -> (forall c, comment = Some c -> no_break c) ->
  no_break (entry_line ip hostname comment).
Proof.
  intros Hip Hh Hc. unfold entry_line.
  assert (He : no_break (ip ++ TAB :: hostname)).
  { apply no_break_app; [exact Hip|]. apply no_break_cons; [reflexivity | exact Hh]. }
  destruct comment as [c|]; [|exact He].
  destruct (truthy_str c); [|exact He].
  apply no_break_app; [exact He|]. apply no_break_app.
  - apply no_break_of_b. reflexivity.
  - apply Hc. reflexivity.
Qed.

(* ------------------------------------------------------------------ *)
(** ** Claims *)

(** C9 (counterexample): [add_entry] with a section that is not found
    commits a baseline holding the single element ["\n# DEV"]. The file
    written from it reads back with that element split into [""] and
    ["# DEV"], so the reloaded sequence is not the sequence written. *)
Lemma C9_section_element_not_reloaded :
  let st' := add_entry ascii_lower (u "y") (u "10.0.0.1") (u "b.test") (Some (u "DEV")) None
               work_state in
  disk st' = written_text (lines st') /\ read_lines (disk st') <> lines st'.
Proof. vm_compute. split; [reflexivity | discriminate]. Qed.

(** C9 (amended): writing a non-empty sequence of lines, none of which
    contains a line boundary, through [write_text] and reading the file
    back with [_read_file] gives the same sequence. [_write_file] never
    writes the empty sequence (the [or] fallback replaces it); it would
    read back as one empty line. *)
Theorem C9_write_reload (ls : list pystr) (st : state) :
  ls <> [] -> Forall no_break ls ->
  read_lines (disk (write_text (written_text ls) st)) = ls
  /\ read_lines (disk (write_text (written_text []) st)) = [[]].
Proof.
  intros Hne Hf. simpl. split.
  - apply read_lines_written; assumption.
  - reflexivity.
Qed.

Lemma C9_write_reload_witness :
  work_doc <> [] /\ Forall no_break work_doc /\
  read_lines (disk (write_text (written_text work_doc) work_state)) = work_doc
  /\ read_lines (disk (write_text (written_text []) work_state)) = [[]].
Proof.
  assert (Hne : work_doc <> []) by discriminate.
  assert (Hf : Forall no_break work_doc).
  { repeat constructor; intros c Hc; repeat (destruct Hc as [<-|Hc]; [reflexivity|]);
    destruct Hc. }
  split; [exact Hne|]. split; [exact Hf|].
  apply (C9_write_reload work_doc work_state Hne Hf).
Defined.

(** C4 (counterexample): a line with leading whitespace that
    [comment_entry] disables does not come back unchanged from
    [uncomment_entry]: [re.sub(r"^#\s*", "", ...)] also removes the
    original leading whitespace. *)
Lemma C4_indented_line_not_restored :
  let h := u "foo.test" in
  let l := u " 127.0.0.1" ++ TAB :: u "foo.test" in
  snd (comment_line h l) = true
  /\ fst (uncomment_line h (fst (comment_line h l))) <> l.
Proof. vm_compute. split; [reflexivity | discriminate]. Qed.

(** C4 (amended): for every line [comment_entry] disables, the
    [uncomment_entry] step applied to the result also fires and gives back
    the original line without its leading whitespace; exactly the
    original line when it does not begin with whitespace. *)
Theorem C4_comment_uncomment (hostname l : pystr) :
  snd (comment_line hostname l) = true ->
  uncomment_line hostname (fst (comment_line hostname l)) = (lstrip_if is_space l, true)
  /\ (starts_with_space l = false ->
      fst (uncomment_line hostname (fst (comment_line hostname l))) = l).
Proof.
  unfold comment_line.
  destruct (contains hostname l && negb (startswith (py_strip l) [HASH])) eqn:E;
    simpl; [|discriminate]. intros _.
  apply andb_true_iff in E as [Hin _].
  assert (Hu : uncomment_line hostname (HASH :: SPACE :: l) = (lstrip_if is_space l, true)).
  { unfold uncomment_line.
    rewrite (contains_cons _ _ _ (contains_cons _ _ _ Hin)).
    destruct (py_strip_cons HASH (SPACE :: l) eq_refl) as [r ->]. simpl. reflexivity. }
  rewrite Hu. split; [reflexivity|].
  intros Hs. simpl. apply lstrip_if_no_space. exact Hs.
Qed.

Lemma C4_comment_uncomment_witness :
  let h := u "foo.test" in
  let l := u "127.0.0.1" ++ TAB :: u "foo.test" in
  snd (comment_line h l) = true /\ starts_with_space l = false /\
  fst (uncomment_line h (fst (comment_line h l))) = l.
Proof.
  intros h l.
  assert (H1 : snd (comment_line h l) = true) by reflexivity.
  assert (H2 : starts_with_space l = false) by reflexivity.
  split; [exact H1|]. split; [exact H2|].
  exact (proj2 (C4_comment_uncomment h l H1) H2).
Defined.

(** C8: the commit workflow [_write_file].  When the proposed lines equal
    the baseline, only "No changes to apply" is printed; when the answer
    to the prompt is not "y", file, backup and baseline are unchanged; and
    when the prompt was shown and answered "y", the events are: diff shown,
    prompt, copy to the backup, overwrite, report, in this order, the
    backup holds the original file, the file holds the new lines and the
    baseline becomes them. *)
Theorem C8_commit_workflow (py_lower : pystr -> pystr) (ans : pystr)
    (new_lines : list pystr) (st : state) :
  let st' := write_file py_lower ans new_lines st in
  (new_lines = lines st -> st' = emit MsgNoChangesToApply st)
  /\ (confirms py_lower ans = false ->
      disk st' = disk st /\ backup st' = backup st /\ lines st' = lines st)
  /\ (forall evs, trace st' = trace st ++ evs -> In EInput evs ->
      confirms py_lower ans = true ->
      evs = [EPrint (MsgProposedChanges (lines st) new_lines); EInput;
             ECopy (path st) (backup_path st);
             EWrite (path st) (written_text new_lines);
             EPrint (MsgChangesApplied (backup_path st))]
      /\ backup st' = Some (disk st) /\ disk st' = written_text new_lines
      /\ lines st' = new_lines).
Proof.
  cbv zeta. unfold write_file, show_diff.
  destruct (lines_eqb (lines st) (list_or new_lines (lines st))) eqn:E; simpl.
  - (* no difference: only the report *)
    split; [reflexivity|]. split; [intros _; repeat split; reflexivity|].
    intros evs Htr Hin _. apply app_inv_head in Htr. subst evs.
    destruct Hin as [H|[]]. discriminate.
  - assert (Hne : new_lines <> []).
    { intros ->. rewrite list_or_nil, lines_eqb_refl in E. discriminate. }
    rewrite (list_or_cons _ _ Hne) in E |- *.
    split.
    { intros ->. rewrite lines_eqb_refl in E. discriminate. }
    destruct (confirms py_lower ans) eqn:C; simpl.
    + split; [discriminate|].
      intros evs Htr _ _. rewrite <- !app_assoc in Htr. apply app_inv_head in Htr.
      subst evs. repeat split; reflexivity.
    + split; [intros _; repeat split; reflexivity|].
      intros evs _ _ D. discriminate.
Qed.

(** C10: when the proposed sequence is empty, [new_lines or self.lines]
    falls back to the baseline: the workflow prints "No changes to apply"
    and does nothing else (no prompt, no backup, no write).  In particular
    [delete_entry] on a non-empty document all of whose lines contain the
    hostname ends that way. *)
Theorem C10_empty_proposal_not_written (py_lower : pystr -> pystr)
    (ans hostname : pystr) (st : state) :
  write_file py_lower ans [] st = emit MsgNoChangesToApply st
  /\ (lines st <> [] -> Forall (fun l => contains hostname l = true) (lines st) ->
      delete_entry py_lower ans hostname st = emit MsgNoChangesToApply st).
Proof.
  assert (Hw : write_file py_lower ans [] st = emit MsgNoChangesToApply st).
  { unfold write_file, show_diff. rewrite list_or_nil, lines_eqb_refl. reflexivity. }
  split; [exact Hw|]. intros Hne Hall.
  unfold delete_entry.
  assert (Hf : filter (fun l => negb (contains hostname l)) (lines st) = []).
  { clear Hne. induction Hall as [|l ls Hl _ IH]; [reflexivity|].
    simpl. rewrite Hl. exact IH. }
  rewrite Hf. rewrite (lines_eqb_false [] (lines st)) by congruence.
  exact Hw.
Qed.

Lemma C10_empty_proposal_not_written_witness :
  lines foo_state <> [] /\
  Forall (fun l => contains (u "foo.test") l = true) (lines foo_state) /\
  delete_entry ascii_lower (u "y") (u "foo.test") foo_state
    = emit MsgNoChangesToApply foo_state.
Proof.
  assert (H1 : lines foo_state <> []) by (vm_compute; discriminate).
  assert (H2 : Forall (fun l => contains (u "foo.test") l = true) (lines foo_state)).
  { vm_compute. repeat constructor. }
  split; [exact H1|]. split; [exact H2|].
  exact (proj2 (C10_empty_proposal_not_written ascii_lower (u "y") (u "foo.test")
                  foo_state) H1 H2).
Defined.

(** C6: [add_entry] with a non-empty section name that
    [_find_section_index] does not find proposes the baseline followed by
    the element ["\n# SECTION"] and the entry line; once confirmed, the file
    reads back as the old lines, then an empty line, the header
    ["# SECTION"] and the entry line: one new section block at the end of
    the document holding only the new entry. *)
Theorem C6_add_entry_new_section (py_lower : pystr -> pystr)
    (ans ip hostname section : pystr) (comment : option pystr) (st : state) :
  section <> [] -> find_section_index py_lower section st = None ->
  confirms py_lower ans = true ->
  Forall no_break (lines st) -> no_break ip -> no_break hostname -> no_break section ->
  (forall c, comment = Some c -> no_break c) ->
  add_entry_lines py_lower ip hostname (Some section) comment st
    = lines st ++ [LF :: u "# " ++ section; entry_line ip hostname comment]
  /\ read_lines (disk (add_entry py_lower ans ip hostname (Some section) comment st))
    = lines st ++ [[]; u "# " ++ section; entry_line ip hostname comment].
Proof.
  intros Hs Hfind Hc Hls Hip Hh Hsec Hcom.
  assert (Hnew : add_entry_lines py_lower ip hostname (Some section) comment st
                 = lines st ++ [LF :: u "# " ++ section; entry_line ip hostname comment]).
  { unfold add_entry_lines. destruct section as [|c0 s0]; [congruence|].
    simpl truthy_str. cbv iota. rewrite Hfind. reflexivity. }
  split; [exact Hnew|].
  unfold add_entry. rewrite Hnew.
  set (nl := lines st ++ [LF :: u "# " ++ section; entry_line ip hostname comment]).
  assert (Hne : nl <> []) by (unfold nl; destruct (lines st); discriminate).
  assert (Hdiff : nl <> lines st).
  { unfold nl. intros E. apply (f_equal (@List.length pystr)) in E.
    rewrite length_app in E. simpl in E. lia. }
  destruct (write_file_confirmed py_lower ans nl st Hne Hdiff Hc) as [-> _].
  unfold nl. rewrite written_text_split_header. apply read_lines_written.
  - destruct (lines st); discriminate.
  - apply Forall_app. split; [exact Hls|].
    repeat constructor.
    + exact no_break_nil.
    + apply no_break_app; [apply no_break_of_b; reflexivity | exact Hsec].
    + apply no_break_entry_line; assumption.
Qed.

Lemma C6_add_entry_new_section_witness :
  let section := u "DEV" in
  let ip := u "10.0.0.1" in
  let hostname := u "dev.test" in
  let comment := Some (u "temp") in
  section <> [] /\ find_section_index ascii_lower section work_state = None /\
  confirms ascii_lower (u "y") = true /\
  add_entry_lines ascii_lower ip hostname (Some section) comment work_state
    = lines work_state ++ [LF :: u "# " ++ section; entry_line ip hostname comment]
  /\ read_lines (disk (add_entry ascii_lower (u "y") ip hostname (Some section) comment work_state))
    = lines work_state ++ [[]; u "# " ++ section; entry_line ip hostname comment].
Proof.
  intros section ip hostname comment.
  assert (H1 : section <> []) by discriminate.
  assert (H2 : find_section_index ascii_lower section work_state = None) by reflexivity.
  assert (H3 : confirms ascii_lower (u "y") = true) by reflexivity.
  assert (H4 : Forall no_break (lines work_state)).
  { apply Forall_no_break_of_b. reflexivity. }
  split; [exact H1|]. split; [exact H2|]. split; [exact H3|].
  apply (C6_add_entry_new_section ascii_lower (u "y") ip hostname section comment
           work_state H1 H2 H3 H4); try (apply no_break_of_b; reflexivity).
  intros c Hc. injection Hc as <-. apply no_break_of_b. reflexivity.
Defined.

(** C1 (code_bug): on the scenario of the spec, [disable-section work
    --site example.com] comments out the one entry and commits, but
    [toggle_section] ends without [return updated], so it returns [None];
    [cli.disable_section] then prints no summary. *)
Theorem C1_toggle_section_returns_none :
  let run := toggle_section ascii_lower ascii_upper (u "y") (u "work")
               (Some (u "example.com")) false work_state in
  fst run = PNone
  /\ lines (snd run) = [u "# WORK #"; u "# example.com";
                        u "# 127.0.0.1" ++ TAB :: u "example.com"]
  /\ cli_disable_section ascii_lower ascii_upper (u "y") (u "work")
       (Some (u "example.com")) work_state = snd run.
Proof. vm_compute. repeat split; reflexivity. Qed.

(** C2 (code_bug): [_find_section_index] compares a stripped line with
    ["# " + section], so it does not find the conventional header
    ["# WORK #"] (which [toggle_section] finds at index 0); [add_entry]
    then appends a second ["# WORK"] block at the end instead of inserting
    the entry after the header. *)
Theorem C2_add_entry_misses_conventional_header :
  let entry := u "10.0.0.1" ++ TAB :: u "b.test" in
  find_header_from (ascii_upper (u "WORK")) 0 work_doc = Some 0%nat
  /\ find_section_index ascii_lower (u "WORK") work_state = None
  /\ add_entry_lines ascii_lower (u "10.0.0.1") (u "b.test") (Some (u "WORK")) None work_state
     = work_doc ++ [LF :: u "# WORK"; entry]
  /\ add_entry_lines ascii_lower (u "10.0.0.1") (u "b.test") (Some (u "WORK")) None work_state
     <> list_insert 1 entry work_doc.
Proof. vm_compute. repeat split; try reflexivity. discriminate. Qed.

(** C3 (code_bug): [search_entries(None)], which [cli search] calls when
    [--query] is not given, evaluates [None in line] on the first line and
    raises [TypeError] on every non-empty document. *)
Theorem C3_search_none_raises (st : state) :
  lines st <> [] -> search_entries None st = Raise TypeError.
Proof.
  intros Hne. unfold search_entries.
  destruct (lines st) as [|l ls]; [congruence|]. reflexivity.
Qed.

Lemma C3_search_none_raises_witness :
  lines work_state <> [] /\ search_entries None work_state = Raise TypeError.
Proof.
  assert (H : lines work_state <> []) by (vm_compute; discriminate).
  split; [exact H | exact (C3_search_none_raises work_state H)].
Defined.

(** C5 (code_bug): the line ["#127.0.0.1\tfoo.test"] (an entry disabled
    without a space) is no site for [list_sections], whose name starts
    with a digit, but [toggle_section] only excludes ["# <digit>"] and
    takes it as a site comment.  So [enable-section WORK] leaves it
    disabled and reports no changes, while [uncomment_entry] enables
    it. *)
Theorem C5_site_decisions_differ :
  let line := u "#127.0.0.1" ++ TAB :: u "foo.test" in
  header_shaped (py_strip line) = false
  /\ list_sections_site (py_strip line) = None
  /\ toggle_site (py_strip line) = Some (u "127.0.0.1" ++ TAB :: u "foo.test")
  /\ list_sections_result ascii_isupper tight_doc = [(u "WORK", [])]
  /\ toggle_section ascii_lower ascii_upper (u "y") (u "WORK") None true tight_state
     = (PNone, emit (MsgNoChangesForSection (u "WORK")) tight_state)
  /\ lines (uncomment_entry ascii_lower (u "y") (u "foo.test") tight_state)
     = [u "# WORK #"; u "127.0.0.1" ++ TAB :: u "foo.test"].
Proof. vm_compute. repeat split; reflexivity. Qed.

(** C7 (code_bug): deleting the hostname of the only line proposes the
    empty list, which [new_lines or self.lines] in [_write_file] turns
    back into the baseline: "No changes to apply" is printed and the line
    is neither removed from the file nor from the baseline. *)
Theorem C7_delete_last_line_not_removed :
  delete_entry ascii_lower (u "y") (u "foo.test") foo_state
    = emit MsgNoChangesToApply foo_state
  /\ lines foo_state = [u "127.0.0.1" ++ TAB :: u "foo.test"]
  /\ filter (fun l => negb (contains (u "foo.test") l)) (lines foo_state) = [].
Proof. vm_compute. repeat split; reflexivity. Qed.

(* ------------------------------------------------------------------ *)
(** ** Further properties of the editor *)

Lemma comment_line_matched (h l l' : pystr) :
  comment_line h l = (l', true) -> l' = HASH :: SPACE :: l.
Proof.
  unfold comment_line. destruct (_ && _); intros E; injection E; congruence.
Qed.

Lemma comment_line_unmatched (h l l' : pystr) :
  comment_line h l = (l', false) -> l' = l.
Proof.
  unfold comment_line. destruct (_ && _); intros E; injection E; congruence.
Qed.

(** A line [comment_entry] produced is never matched by it again. *)
Lemma comment_line_twice (h l : pystr) :
  snd (comment_line h (fst (comment_line h l))) = false.
Proof.
  destruct (comment_line h l) as [l' b] eqn:E. simpl. destruct b.
  - apply comment_line_matched in E. subst l'. unfold comment_line.
    destruct (py_strip_cons HASH (SPACE :: l) eq_refl) as [r ->].
    simpl. rewrite andb_false_r. reflexivity.
  - pose proof E as E'. apply comment_line_unmatched in E. subst l'. rewrite E'. reflexivity.
Qed.

Lemma comment_lines_changed (h : pystr) (ls : list pystr) :
  existsb snd (map (comment_line h) ls) = true ->
  map fst (map (comment_line h) ls) <> ls /\ ls <> [].
Proof.
  induction ls as [|a ls IH]; simpl; [discriminate|]. intros Hex.
  split; [|discriminate].
  destruct (comment_line h a) as [a' b] eqn:E. simpl in *. destruct b.
  - apply comment_line_matched in E. subst a'. intros Heq. injection Heq as Ha _.
    apply (f_equal (@List.length pychar)) in Ha. simpl in Ha. lia.
  - apply comment_line_unmatched in E. subst a'. simpl in Hex.
    intros Heq. injection Heq as Heq. exact (proj1 (IH Hex) Heq).
Qed.

Lemma comment_lines_twice (h : pystr) (ls : list pystr) :
  existsb snd (map (comment_line h) (map (fun x => fst (comment_line h x)) ls)) = false.
Proof.
  induction ls as [|a ls IH]; [reflexivity|].
  simpl. rewrite comment_line_twice. exact IH.
Qed.

(** [comment_entry] is idempotent once committed: after a confirmed
    [comment_entry hostname], a second [comment_entry hostname] finds no
    active entry, prints "No active entry found" and writes nothing. *)
Theorem comment_entry_twice (py_lower : pystr -> pystr) (ans ans2 hostname : pystr)
    (st : state) :
  confirms py_lower ans = true ->
  let st1 := comment_entry py_lower ans hostname st in
  comment_entry py_lower ans2 hostname st1 = emit (MsgNoActiveEntry hostname) st1.
Proof.
  intros Hc st1. subst st1. unfold comment_entry at 2.
  destruct (existsb snd (map (comment_line hostname) (lines st))) eqn:Ex.
  - destruct (comment_lines_changed hostname (lines st) Ex) as [Hdiff Hne].
    assert (Hne' : map fst (map (comment_line hostname) (lines st)) <> []).
    { destruct (lines st); [congruence | discriminate]. }
    destruct (write_file_confirmed py_lower ans _ st Hne' Hdiff Hc) as [_ [_ Hl]].
    unfold comment_entry. rewrite Ex, Hl.
    assert (Hnone : existsb snd (map (comment_line hostname)
                      (map fst (map (comment_line hostname) (lines st)))) = false).
    { rewrite (map_map (comment_line hostname) fst). apply comment_lines_twice. }
    rewrite Hnone. reflexivity.
  - unfold comment_entry. simpl. rewrite Ex. reflexivity.
Qed.

Lemma comment_entry_twice_witness :
  confirms ascii_lower (u "y") = true /\
  comment_entry ascii_lower (u "n") (u "example.com")
    (comment_entry ascii_lower (u "y") (u "example.com") work_state)
  = emit (MsgNoActiveEntry (u "example.com"))
      (comment_entry ascii_lower (u "y") (u "example.com") work_state).
Proof.
  assert (H : confirms ascii_lower (u "y") = true) by reflexivity.
  split; [exact H|].
  exact (comment_entry_twice ascii_lower (u "y") (u "n") (u "example.com") work_state H).
Defined.

(** [uncomment_entry] cannot enable a disabled line that begins with
    whitespace: [re.sub(r"^#\s*", ...)] is anchored at the first character.
    When every matched line is indented, the lines are counted as updated
    but none changes, so "No changes to apply" is printed (not "No
    commented entry found") and nothing is written. *)
Theorem uncomment_entry_indented (py_lower : pystr -> pystr) (ans hostname : pystr)
    (st : state) :
  (forall l, In l (lines st) -> snd (uncomment_line hostname l) = true ->
             starts_with_space l = true) ->
  existsb snd (map (uncomment_line hostname) (lines st)) = true ->
  uncomment_entry py_lower ans hostname st = emit MsgNoChangesToApply st.
Proof.
  intros Hind Hex. unfold uncomment_entry. rewrite Hex.
  assert (Hsame : map fst (map (uncomment_line hostname) (lines st)) = lines st).
  { rewrite map_map. rewrite <- (map_id (lines st)) at 2. apply map_ext_in.
    intros l Hl. specialize (Hind l Hl). unfold uncomment_line in *.
    destruct (_ && _); simpl; [|reflexivity].
    specialize (Hind eq_refl). destruct l as [|c r]; [discriminate|].
    simpl in Hind |- *. destruct (N.eqb_spec c HASH); [subst; discriminate | reflexivity]. }
  rewrite Hsame. unfold write_file, show_diff.
  rewrite list_or_self, lines_eqb_refl. reflexivity.
Qed.

Lemma uncomment_entry_indented_witness :
  (forall l, In l (lines indented_state) ->
     snd (uncomment_line (u "foo.test") l) = true -> starts_with_space l = true) /\
  existsb snd (map (uncomment_line (u "foo.test")) (lines indented_state)) = true /\
  uncomment_entry ascii_lower (u "y") (u "foo.test") indented_state
    = emit MsgNoChangesToApply indented_state.
Proof.
  assert (H1 : forall l, In l (lines indented_state) ->
     snd (uncomment_line (u "foo.test") l) = true -> starts_with_space l = true).
  { vm_compute. intros l [<-|[]] _. reflexivity. }
  assert (H2 : existsb snd (map (uncomment_line (u "foo.test")) (lines indented_state)) = true)
    by reflexivity.
  split; [exact H1|]. split; [exact H2|].
  exact (uncomment_entry_indented ascii_lower (u "y") (u "foo.test") indented_state H1 H2).
Defined.

(** A confirmed [delete_entry] that leaves at least one line removes every
    line containing the hostname and keeps the others in order; the file
    then reads back as exactly those lines, and the backup holds the old
    file. *)
Theorem delete_entry_confirmed (py_lower : pystr -> pystr) (ans hostname : pystr)
    (st : state) :
  confirms py_lower ans = true -> Forall no_break (lines st) ->
  (exists l, In l (lines st) /\ contains hostname l = true) ->
  (exists l, In l (lines st) /\ contains hostname l = false) ->
  let st' := delete_entry py_lower ans hostname st in
  lines st' = filter (fun l => negb (contains hostname l)) (lines st)
  /\ Forall (fun l => contains hostname l = false) (lines st')
  /\ read_lines (disk st') = lines st'
  /\ backup st' = Some (disk st).
Proof.
  intros Hc Hnb [m [Hm Hmc]] [k [Hk Hkc]] st'. subst st'.
  set (f := filter (fun l => negb (contains hostname l)) (lines st)).
  assert (Hfk : In k f) by (apply filter_In; rewrite Hkc; auto).
  assert (Hne : f <> []) by (intros E; rewrite E in Hfk; destruct Hfk).
  assert (Hdiff : f <> lines st).
  { intros E. rewrite <- E in Hm. apply filter_In in Hm as [_ Hm].
    rewrite Hmc in Hm. discriminate. }
  unfold delete_entry. fold f. rewrite (lines_eqb_false f (lines st) Hdiff).
  destruct (write_file_confirmed py_lower ans f st Hne Hdiff Hc) as [Hd [Hb Hl]].
  rewrite Hd, Hb, Hl. split; [reflexivity|]. split; [|split; [|reflexivity]].
  - apply Forall_forall. intros l Hl'. apply filter_In in Hl' as [_ Hl'].
    destruct (contains hostname l); [discriminate | reflexivity].
  - apply read_lines_written; [exact Hne|].
    apply Forall_forall. intros l Hl'. apply filter_In in Hl' as [Hl' _].
    rewrite Forall_forall in Hnb. exact (Hnb l Hl').
Qed.

Lemma delete_entry_confirmed_witness :
  confirms ascii_lower (u "y") = true /\ Forall no_break (lines work_state) /\
  (exists l, In l (lines work_state) /\ contains (u "example.com") l = true) /\
  (exists l, In l (lines work_state) /\ contains (u "example.com") l = false) /\
  lines (delete_entry ascii_lower (u "y") (u "example.com") work_state) = [u "# WORK #"].
Proof.
  assert (H1 : confirms ascii_lower (u "y") = true) by reflexivity.
  assert (H2 : Forall no_break (lines work_state))
    by (apply Forall_no_break_of_b; reflexivity).
  assert (H3 : exists l, In l (lines work_state) /\ contains (u "example.com") l = true).
  { exists (u "# example.com"). split; [vm_compute; auto | reflexivity]. }
  assert (H4 : exists l, In l (lines work_state) /\ contains (u "example.com") l = false).
  { exists (u "# WORK #"). split; [vm_compute; auto | reflexivity]. }
  split; [exact H1|]. split; [exact H2|]. split; [exact H3|]. split; [exact H4|].
  rewrite (proj1 (delete_entry_confirmed ascii_lower (u "y") (u "example.com")
                    work_state H1 H2 H3 H4)).
  reflexivity.
Defined.

(** [add_entry] without a section (or with an empty section name)
    proposes the baseline with the entry line appended; once confirmed the
    file reads back as the old lines followed by that one line. *)
Theorem add_entry_no_section (py_lower : pystr -> pystr)
    (ans ip hostname : pystr) (section comment : option pystr) (st : state) :
  (section = None \/ section = Some []) ->
  confirms py_lower ans = true ->
  Forall no_break (lines st) -> no_break ip -> no_break hostname ->
  (forall c, comment = Some c -> no_break c) ->
  let st' := add_entry py_lower ans ip hostname section comment st in
  lines st' = lines st ++ [entry_line ip hostname comment]
  /\ read_lines (disk st') = lines st ++ [entry_line ip hostname comment]
  /\ backup st' = Some (disk st).
Proof.
  intros Hs Hc Hls Hip Hh Hcom st'. subst st'.
  assert (Hnew : add_entry_lines py_lower ip hostname section comment st
                 = lines st ++ [entry_line ip hostname comment]).
  { destruct Hs as [->| ->]; reflexivity. }
  unfold add_entry. rewrite Hnew.
  set (nl := lines st ++ [entry_line ip hostname comment]).
  assert (Hne : nl <> []) by (unfold nl; destruct (lines st); discriminate).
  assert (Hdiff : nl <> lines st).
  { unfold nl. intros E. apply (f_equal (@List.length pystr)) in E.
    rewrite length_app in E. simpl in E. lia. }
  destruct (write_file_confirmed py_lower ans nl st Hne Hdiff Hc) as [Hd [Hb Hl]].
  rewrite Hd, Hb, Hl. split; [reflexivity|]. split; [|reflexivity].
  apply read_lines_written; [exact Hne|].
  apply Forall_app. split; [exact Hls|]. constructor; [|constructor].
  apply no_break_entry_line; assumption.
Qed.

Lemma add_entry_no_section_witness :
  let ip := u "10.0.0.1" in
  let hostname := u "foo.test" in
  let comment := Some (u "temp") in
  (@None pystr = None \/ @None pystr = Some []) /\ confirms ascii_lower (u "y") = true /\
  read_lines (disk (add_entry ascii_lower (u "y") ip hostname None comment work_state))
    = work_doc ++ [u "10.0.0.1" ++ TAB :: u "foo.test  # temp"].
Proof.
  intros ip hostname comment.
  assert (H0 : @None pystr = None \/ @None pystr = Some []) by (left; reflexivity).
  assert (H1 : confirms ascii_lower (u "y") = true) by reflexivity.
  assert (H2 : Forall no_break (lines work_state))
    by (apply Forall_no_break_of_b; reflexivity).
  assert (H3 : forall c, comment = Some c -> no_break c).
  { intros c Hc. injection Hc as <-. apply no_break_of_b. reflexivity. }
  split; [exact H0|]. split; [exact H1|].
  rewrite (proj1 (proj2 (add_entry_no_section ascii_lower (u "y") ip hostname None comment
                    work_state H0 H1 H2 (no_break_of_b ip eq_refl)
                    (no_break_of_b hostname eq_refl) H3))).
  reflexivity.
Defined.

Lemma find_section_index_from_spec (py_lower : pystr -> pystr) (section : pystr)
    (k j : nat) (ls : list pystr) :
  find_section_index_from py_lower section k ls = Some j ->
  (k <= j)%nat /\ exists l, nth_error ls (j - k) = Some l
    /\ str_eqb (py_lower (py_strip l)) (py_lower (u "# " ++ section)) = true.
Proof.
  revert k. induction ls as [|a ls IH]; intros k H; [discriminate|].
  simpl in H. destruct (str_eqb _ _) eqn:E.
  - injection H as <-. split; [lia|]. exists a. rewrite Nat.sub_diag. auto.
  - destruct (IH (S k) H) as [Hk [l [Hl Hs]]]. split; [lia|].
    exists l. replace (j - k)%nat with (S (j - S k)) by lia. auto.
Qed.

Lemma list_insert_spec {A} (i : nat) (x : A) (l : list A) :
  (i <= List.length l)%nat ->
  firstn i (list_insert i x l) ++ skipn (S i) (list_insert i x l) = l
  /\ nth_error (list_insert i x l) i = Some x
  /\ (forall j, (j < i)%nat -> nth_error (list_insert i x l) j = nth_error l j).
Proof.
  unfold list_insert. revert i. induction l as [|a l IH]; intros i Hi.
  - destruct i; [|simpl in Hi; lia]. simpl. split; [reflexivity|]. split; [reflexivity|].
    intros j Hj. lia.
  - destruct i as [|i].
    + simpl. split; [reflexivity|]. split; [reflexivity|]. intros j Hj. lia.
    + simpl in Hi. destruct (IH i ltac:(lia)) as [H1 [H2 H3]].
      simpl. split; [f_equal; exact H1|]. split; [exact H2|].
      intros [|j] Hj; [reflexivity|]. simpl. apply H3. lia.
Qed.

(** When [_find_section_index] finds the section at [idx] (a line whose
    stripped, lower-cased text is ["# section"] lower-cased), [add_entry]
    proposes the entry line at position [idx + 1], right after that line,
    which stays in place; taking the entry out gives back the old lines. *)
Theorem add_entry_existing_section (py_lower : pystr -> pystr)
    (ip hostname section : pystr) (comment : option pystr) (st : state) (idx : nat) :
  section <> [] -> find_section_index py_lower section st = Some idx ->
  let nl := add_entry_lines py_lower ip hostname (Some section) comment st in
  (exists l, nth_error (lines st) idx = Some l
     /\ str_eqb (py_lower (py_strip l)) (py_lower (u "# " ++ section)) = true
     /\ nth_error nl idx = Some l)
  /\ nth_error nl (S idx) = Some (entry_line ip hostname comment)
  /\ firstn (S idx) nl ++ skipn (S (S idx)) nl = lines st.
Proof.
  intros Hs Hf nl.
  assert (Hnl : nl = list_insert (S idx) (entry_line ip hostname comment) (lines st)).
  { unfold nl, add_entry_lines. destruct section; [congruence|]. simpl truthy_str.
    cbv iota. rewrite Hf. reflexivity. }
  unfold find_section_index in Hf.
  destruct (find_section_index_from_spec py_lower section 0 idx (lines st) Hf)
    as [_ [l [Hl Hm]]]. rewrite Nat.sub_0_r in Hl.
  assert (Hlen : (S idx <= List.length (lines st))%nat).
  { apply nth_error_Some. congruence. }
  destruct (list_insert_spec (S idx) (entry_line ip hostname comment) (lines st) Hlen)
    as [H1 [H2 H3]].
  rewrite Hnl. split; [|split; assumption].
  exists l. split; [exact Hl|]. split; [exact Hm|]. rewrite H3 by lia. exact Hl.
Qed.

Lemma add_entry_existing_section_witness :
  u "DEV" <> [] /\ find_section_index ascii_lower (u "DEV") dev_state = Some 0%nat /\
  nth_error (add_entry_lines ascii_lower (u "10.0.0.2") (u "b.test") (Some (u "DEV")) None
               dev_state) 1 = Some (u "10.0.0.2" ++ TAB :: u "b.test").
Proof.
  assert (H1 : u "DEV" <> []) by discriminate.
  assert (H2 : find_section_index ascii_lower (u "DEV") dev_state = Some 0%nat) by reflexivity.
  split; [exact H1|]. split; [exact H2|].
  exact (proj1 (proj2 (add_entry_existing_section ascii_lower (u "10.0.0.2") (u "b.test")
                         (u "DEV") None dev_state 0 H1 H2))).
Defined.

Lemma toggle_section_result (py_lower py_upper : pystr -> pystr) (ans section : pystr)
    (site : option pystr) (enable : bool) (st : state) :
  fst (toggle_section py_lower py_upper ans section site enable st) = PNone
  \/ fst (toggle_section py_lower py_upper ans section site enable st) = PInt 0.
Proof.
  unfold toggle_section.
  destruct (find_header_from _ _ _); [|right; reflexivity].
  destruct (toggle_walk _ _ _ _) as [r k]. destruct (0 <? k)%nat; left; reflexivity.
Qed.

(** [toggle_section] returns [None] or [0], both false, so the summary
    lines of [cli disable-section] and [cli enable-section] are never
    printed: each command's effect is exactly that of [toggle_section]. *)
Theorem cli_section_commands_no_summary (py_lower py_upper : pystr -> pystr)
    (ans section : pystr) (site : option pystr) (st : state) :
  cli_disable_section py_lower py_upper ans section site st
    = snd (toggle_section py_lower py_upper ans section site false st)
  /\ cli_enable_section py_lower py_upper ans section site st
    = snd (toggle_section py_lower py_upper ans section site true st).
Proof.
  unfold cli_disable_section, cli_enable_section. split.
  - destruct (toggle_section_result py_lower py_upper ans section site false st) as [E|E];
    destruct (toggle_section py_lower py_upper ans section site false st) as [r st'];
    simpl in E; subst r; reflexivity.
  - destruct (toggle_section_result py_lower py_upper ans section site true st) as [E|E];
    destruct (toggle_section py_lower py_upper ans section site true st) as [r st'];
    simpl in E; subst r; reflexivity.
Qed.

Lemma str_eqb_true (a b : pystr) : str_eqb a b = true -> a = b.
Proof. unfold str_eqb. destruct (list_eq_dec N.eq_dec a b); congruence. Qed.

Lemma app_assoc_cons {A : Type} (l : list A) (a : A) (m : list A) :
  l ++ a :: m = (l ++ [a]) ++ m.
Proof. rewrite <- app_assoc. reflexivity. Qed.

(** Lines of the range that the walk leaves alone: from a section header
    on, nothing changes. *)
Lemma toggle_walk_frame (site : option pystr) (enable : bool) (mid post : list pystr) :
  Forall (fun l => header_shaped (py_strip l) = false) mid ->
  (post = [] \/ exists h p, post = h :: p /\ header_shaped (py_strip h) = true) ->
  forall cur, exists mid',
    fst (toggle_walk site enable cur (mid ++ post)) = mid' ++ post
    /\ List.length mid' = List.length mid.
Proof.
  intros Hmid Hpost. induction Hmid as [|l mid Hl Hmid IH]; intros cur.
  - exists []. split; [|reflexivity].
    destruct Hpost as [->|[h [p [-> Hh]]]]; simpl; [reflexivity|]. rewrite Hh. reflexivity.
  - simpl. rewrite Hl. destruct (toggle_site (py_strip l)) as [name|].
    + destruct (IH (Some name)) as [m' [E Hlen]].
      destruct (toggle_walk site enable (Some name) (mid ++ post)) as [rest k].
      simpl in E. subst rest. exists (l :: m'). simpl. auto.
    + destruct (IH cur) as [m' [E Hlen]].
      destruct (toggle_walk site enable cur (mid ++ post)) as [rest k].
      simpl in E. subst rest.
      repeat match goal with |- context [if ?b then _ else _] => destruct b end;
        eexists (_ :: m'); (split; [reflexivity | simpl; lia]).
Qed.

Lemma find_header_from_spec (target : pystr) (k j : nat) (ls : list pystr) :
  find_header_from target k ls = Some j ->
  (k <= j < k + List.length ls)%nat.
Proof.
  revert k. induction ls as [|a ls IH]; intros k H; [discriminate|].
  simpl in H. destruct (_ && _).
  - injection H as <-. simpl. lia.
  - specialize (IH (S k) H). simpl. lia.
Qed.

Lemma write_file_lines (py_lower : pystr -> pystr) (ans : pystr) (nl : list pystr)
    (st : state) :
  nl <> [] ->
  lines (write_file py_lower ans nl st) = lines st
  \/ lines (write_file py_lower ans nl st) = nl.
Proof.
  intros Hne. unfold write_file, show_diff. rewrite (list_or_cons _ _ Hne).
  destruct (lines_eqb (lines st) nl); simpl; [left; reflexivity|].
  destruct (confirms py_lower ans); simpl; [right | left]; reflexivity.
Qed.

(** [toggle_section] only touches the body of the section it found: with
    the document split as [pre ++ header :: mid ++ post], the header at
    index [length pre], no header-shaped line in [mid] and [post] empty or
    starting with the next header-shaped line, the baseline afterwards
    (committed or not) is [pre ++ header :: mid' ++ post] with [mid'] as
    long as [mid]. *)
Theorem toggle_section_frame (py_lower py_upper : pystr -> pystr) (ans section : pystr)
    (site : option pystr) (enable : bool) (st : state)
    (pre : list pystr) (header : pystr) (mid post : list pystr) :
  find_header_from (py_upper section) 0 (lines st) = Some (List.length pre) ->
  lines st = pre ++ header :: mid ++ post ->
  Forall (fun l => header_shaped (py_strip l) = false) mid ->
  (post = [] \/ exists h p, post = h :: p /\ header_shaped (py_strip h) = true) ->
  exists mid',
    lines (snd (toggle_section py_lower py_upper ans section site enable st))
      = pre ++ header :: mid' ++ post
    /\ List.length mid' = List.length mid.
Proof.
  intros Hf Hl Hmid Hpost. unfold toggle_section. rewrite Hf.
  assert (Hsk : skipn (S (List.length pre)) (lines st) = mid ++ post).
  { rewrite Hl. replace (S (List.length pre)) with (List.length (pre ++ [header]))
      by (rewrite length_app; simpl; lia).
    rewrite (app_assoc_cons pre header (mid ++ post)), skipn_app, skipn_all, Nat.sub_diag. reflexivity. }
  assert (Hfi : firstn (S (List.length pre)) (lines st) = pre ++ [header]).
  { rewrite Hl. replace (S (List.length pre)) with (List.length (pre ++ [header]))
      by (rewrite length_app; simpl; lia).
    rewrite (app_assoc_cons pre header (mid ++ post)), firstn_app, firstn_all, Nat.sub_diag. simpl.
    rewrite app_nil_r. reflexivity. }
  rewrite Hsk, Hfi.
  destruct (toggle_walk_frame site enable mid post Hmid Hpost None) as [m' [E Hlen]].
  destruct (toggle_walk site enable None (mid ++ post)) as [rng k]. simpl in E. subst rng.
  destruct (0 <? k)%nat; simpl.
  - destruct (write_file_lines py_lower ans ((pre ++ [header]) ++ m' ++ post) st)
      as [E|E]; [destruct pre; discriminate | |]; rewrite E.
    + exists mid. split; [exact Hl | reflexivity].
    + exists m'. split; [rewrite <- app_assoc; reflexivity | exact Hlen].
  - exists mid. split; [exact Hl | reflexivity].
Qed.

Lemma py_strip_hash_space (l : pystr) :
  exists r, py_strip (HASH :: SPACE :: l) = HASH :: r.
Proof. apply py_strip_cons. reflexivity. Qed.

Lemma toggle_site_none (t : pystr) : toggle_site t = None -> toggle_site_test t = false.
Proof. unfold toggle_site. destruct (toggle_site_test t); congruence. Qed.

(** A second walk over what a disabling walk (with no site filter)
    produced finds nothing left to disable. *)
Lemma toggle_walk_disable_twice (ls : list pystr) :
  forall cur cur',
    snd (toggle_walk None false cur (fst (toggle_walk None false cur' ls))) = 0%nat.
Proof.
  induction ls as [|l ls IH]; intros cur cur'; [reflexivity|].
  cbn [toggle_walk]. destruct (header_shaped (py_strip l)) eqn:Hh.
  { cbn [fst toggle_walk]. rewrite Hh. reflexivity. }
  destruct (toggle_site (py_strip l)) as [name|] eqn:Ts.
  - pose proof (IH (Some name) (Some name)) as I.
    destruct (toggle_walk None false (Some name) ls) as [rest k].
    cbn [fst toggle_walk] in *. rewrite Hh, Ts.
    destruct (toggle_walk None false (Some name) rest) as [r2 k2]. exact I.
  - pose proof (fun c => IH c cur') as I.
    destruct (toggle_walk None false cur' ls) as [rest k]. cbn [fst] in I.
    destruct (negb (truthy_str (py_strip l)) || toggle_site_test (py_strip l)) eqn:C1.
    { cbn [fst toggle_walk]. rewrite Hh, Ts, C1. specialize (I cur).
      destruct (toggle_walk None false cur rest) as [r2 k2]. exact I. }
    cbn [site_selected andb negb].
    destruct (startswith (py_strip l) [HASH]) eqn:SH.
    { cbn [negb fst toggle_walk]. rewrite Hh, Ts, C1. cbn [site_selected andb negb].
      rewrite SH. specialize (I cur).
      destruct (toggle_walk None false cur rest) as [r2 k2]. exact I. }
    cbn [negb fst toggle_walk].
    destruct (py_strip_hash_space l) as [r Hr]. rewrite Hr.
    destruct (header_shaped (HASH :: r)); [reflexivity|].
    destruct (toggle_site (HASH :: r)) as [name2|] eqn:Ts2.
    + specialize (I (Some name2)).
      destruct (toggle_walk None false (Some name2) rest) as [r2 k2]. exact I.
    + rewrite (toggle_site_none _ Ts2). specialize (I cur).
      destruct (toggle_walk None false cur rest) as [r2 k2]. simpl in I |- *.
      exact I.
Qed.

(** A disabling walk that counts an update has changed a line. *)
Lemma toggle_walk_disable_changes (site : option pystr) (ls : list pystr) :
  forall cur, (0 < snd (toggle_walk site false cur ls))%nat ->
  fst (toggle_walk site false cur ls) <> ls.
Proof.
  induction ls as [|l ls IH]; intros cur H; [simpl in H; lia|].
  cbn [toggle_walk] in *. destruct (header_shaped (py_strip l)); [simpl in H; lia|].
  destruct (toggle_site (py_strip l)) as [name|].
  - specialize (IH (Some name)).
    destruct (toggle_walk site false (Some name) ls) as [rest k].
    simpl in *. intros E. injection E as E. exact (IH H E).
  - specialize (IH cur).
    destruct (toggle_walk site false cur ls) as [rest k]. cbn [andb negb] in *.
    repeat match goal with
           | H : context [if ?b then _ else _] |- _ => destruct b
           end; simpl in *;
      try (intros E; injection E as E; exact (IH H E)).
    intros E. injection E as E1 _.
    apply (f_equal (@List.length N)) in E1. simpl in E1. lia.
Qed.

Lemma find_header_from_prefix (target : pystr) (ls : list pystr) :
  forall k j r, find_header_from target k ls = Some j ->
  find_header_from target k (firstn (S (j - k)) ls ++ r) = Some j.
Proof.
  induction ls as [|a ls IH]; intros k j r H; [discriminate|].
  pose proof (find_header_from_spec _ _ _ _ H) as Hj.
  simpl in H |- *. destruct (_ && _) eqn:E.
  - injection H as <-. reflexivity.
  - pose proof (find_header_from_spec _ _ _ _ H) as Hj'.
    replace (j - k)%nat with (S (j - S k)) by lia. simpl firstn. simpl app.
    apply IH. exact H.
Qed.

Lemma toggle_section_frame_witness :
  find_header_from (ascii_upper (u "work")) 0 (lines two_state) = Some (List.length (@nil pystr))
  /\ exists mid',
    lines (snd (toggle_section ascii_lower ascii_upper (u "y") (u "work") None false two_state))
      = [] ++ u "# WORK #" :: mid' ++ [u "# HOME #"; u "10.0.0.1" ++ TAB :: u "b.test"]
    /\ List.length mid' = List.length [u "127.0.0.1" ++ TAB :: u "a.test"].
Proof.
  assert (H1 : find_header_from (ascii_upper (u "work")) 0 (lines two_state)
               = Some (List.length (@nil pystr))) by reflexivity.
  split; [exact H1|].
  apply (toggle_section_frame ascii_lower ascii_upper (u "y") (u "work") None false two_state
           [] (u "# WORK #") [u "127.0.0.1" ++ TAB :: u "a.test"]
           [u "# HOME #"; u "10.0.0.1" ++ TAB :: u "b.test"] H1).
  - reflexivity.
  - constructor; [reflexivity | constructor].
  - right. eexists _, _. split; [reflexivity | reflexivity].
Defined.

(** Disabling a whole section a second time, after a confirmed first
    time, finds nothing to do: it reports that the section needs no
    changes and leaves the state as it is apart from that message. *)
Theorem disable_section_twice (py_lower py_upper : pystr -> pystr) (ans ans2 section : pystr)
    (st : state) :
  confirms py_lower ans = true ->
  find_header_from (py_upper section) 0 (lines st) <> None ->
  let st1 := snd (toggle_section py_lower py_upper ans section None false st) in
  toggle_section py_lower py_upper ans2 section None false st1
    = (PNone, emit (MsgNoChangesForSection section) st1).
Proof.
  intros Hc Hf. destruct (find_header_from (py_upper section) 0 (lines st)) as [i|] eqn:F;
    [clear Hf | congruence].
  cbv zeta.
  pose proof (find_header_from_spec _ _ _ _ F) as Hi. simpl in Hi.
  pose proof (toggle_walk_disable_twice (skipn (S i) (lines st)) None None) as Tw.
  pose proof (toggle_walk_disable_changes None (skipn (S i) (lines st)) None) as Tc.
  destruct (toggle_walk None false None (skipn (S i) (lines st))) as [rng k] eqn:W.
  cbn [fst snd] in Tw, Tc.
  assert (E1 : toggle_section py_lower py_upper ans section None false st
               = if (0 <? k)%nat
                 then (PNone, write_file py_lower ans (firstn (S i) (lines st) ++ rng) st)
                 else (PNone, emit (MsgNoChangesForSection section) st)).
  { unfold toggle_section. rewrite F, W. reflexivity. }
  rewrite E1. destruct (Nat.ltb_spec 0 k) as [K|K]; cbn [snd].
  - assert (Hlen : List.length (firstn (S i) (lines st)) = S i)
      by (rewrite length_firstn; lia).
    assert (Hne : firstn (S i) (lines st) ++ rng <> []).
    { destruct (firstn (S i) (lines st)); [simpl in Hlen; lia | discriminate]. }
    assert (Hdiff : firstn (S i) (lines st) ++ rng <> lines st).
    { intros E. apply (Tc K). apply (app_inv_head (firstn (S i) (lines st))).
      rewrite firstn_skipn. exact E. }
    destruct (write_file_confirmed py_lower ans _ st Hne Hdiff Hc) as [_ [_ Hl]].
    unfold toggle_section at 1. rewrite Hl.
    pose proof (find_header_from_prefix _ _ 0 i rng F) as F2.
    rewrite Nat.sub_0_r in F2. rewrite F2.
    assert (S2 : skipn (S i) (firstn (S i) (lines st) ++ rng) = rng).
    { rewrite skipn_app, skipn_all2 by lia. rewrite Hlen, Nat.sub_diag. reflexivity. }
    rewrite S2. destruct (toggle_walk None false None rng) as [r2 k2].
    cbn [snd] in Tw. subst k2. reflexivity.
  - unfold toggle_section at 1. cbn [lines emit]. rewrite F, W.
    replace k with 0%nat by lia. reflexivity.
Qed.

Lemma disable_section_twice_witness :
  confirms ascii_lower (u "y") = true
  /\ find_header_from (ascii_upper (u "work")) 0 (lines work_state) <> None
  /\ let st1 := snd (toggle_section ascii_lower ascii_upper (u "y") (u "work") None false
                       work_state) in
     toggle_section ascii_lower ascii_upper (u "n") (u "work") None false st1
       = (PNone, emit (MsgNoChangesForSection (u "work")) st1).
Proof.
  assert (H1 : confirms ascii_lower (u "y") = true) by reflexivity.
  assert (H2 : find_header_from (ascii_upper (u "work")) 0 (lines work_state) <> None)
    by discriminate.
  split; [exact H1|]. split; [exact H2|].
  exact (disable_section_twice ascii_lower ascii_upper (u "y") (u "n") (u "work")
           work_state H1 H2).
Defined.

Lemma site_selected_other (x : pystr) (cur : option pystr) :
  cur <> Some x -> site_selected (Some x) cur = false.
Proof.
  intros H. unfold site_selected. destruct cur as [c|]; [|apply andb_false_r].
  destruct (str_eqb c x) eqn:E; [|apply andb_false_r].
  apply str_eqb_true in E. subst c. contradiction.
Qed.

Lemma toggle_walk_other_site (x : pystr) (enable : bool) (ls : list pystr) :
  forall cur, cur <> Some x ->
  (forall l, In l ls -> toggle_site (py_strip l) <> Some x) ->
  toggle_walk (Some x) enable cur ls = (ls, 0%nat).
Proof.
  induction ls as [|l ls IH]; intros cur Hcur Hls; [reflexivity|].
  cbn [toggle_walk]. destruct (header_shaped (py_strip l)); [reflexivity|].
  destruct (toggle_site (py_strip l)) as [name|] eqn:Ts.
  - rewrite (IH (Some name)); [reflexivity | |].
    + intros E. apply (Hls l (or_introl eq_refl)). rewrite Ts. exact E.
    + intros l' Hl'. apply Hls. right. exact Hl'.
  - rewrite (IH cur Hcur) by (intros l' Hl'; apply Hls; right; exact Hl').
    rewrite (site_selected_other x cur Hcur).
    destruct (_ || _); reflexivity.
Qed.

(** A site filter that names no site comment after the section header
    toggles nothing: [toggle_section] only reports that the site needs no
    changes in the section. *)
Theorem toggle_section_other_site (py_lower py_upper : pystr -> pystr) (ans section x : pystr)
    (enable : bool) (st : state) (i : nat) :
  find_header_from (py_upper section) 0 (lines st) = Some i ->
  x <> [] ->
  (forall l, In l (skipn (S i) (lines st)) -> toggle_site (py_strip l) <> Some x) ->
  toggle_section py_lower py_upper ans section (Some x) enable st
    = (PNone, emit (MsgNoChangesForSite x section) st).
Proof.
  intros F Hx Hls. unfold toggle_section. rewrite F.
  rewrite (toggle_walk_other_site x enable _ None) by (discriminate || exact Hls).
  destruct x as [|c x]; [contradiction | reflexivity].
Qed.

Lemma toggle_section_other_site_witness :
  find_header_from (ascii_upper (u "work")) 0 (lines work_state) = Some 0%nat
  /\ u "other.test" <> []
  /\ (forall l, In l (skipn 1 (lines work_state)) ->
        toggle_site (py_strip l) <> Some (u "other.test"))
  /\ toggle_section ascii_lower ascii_upper (u "y") (u "work") (Some (u "other.test")) false
       work_state
     = (PNone, emit (MsgNoChangesForSite (u "other.test") (u "work")) work_state).
Proof.
  assert (H1 : find_header_from (ascii_upper (u "work")) 0 (lines work_state) = Some 0%nat)
    by reflexivity.
  assert (H2 : u "other.test" <> []) by discriminate.
  assert (H3 : forall l, In l (skipn 1 (lines work_state)) ->
                 toggle_site (py_strip l) <> Some (u "other.test")).
  { intros l Hl. vm_compute in Hl.
    repeat (destruct Hl as [<- | Hl]; [vm_compute; discriminate |]). contradiction. }
  split; [exact H1|]. split; [exact H2|]. split; [exact H3|].
  exact (toggle_section_other_site ascii_lower ascii_upper (u "y") (u "work") (u "other.test")
           false work_state 0 H1 H2 H3).
Defined.

Lemma list_sections_result_final (py_isupper : pystr -> bool) (ls : list pystr) :
  list_sections_result py_isupper ls
  = ls_final (fold_left (list_sections_step py_isupper) ls ([], None, [])).
Proof.
  unfold list_sections_result.
  destruct (fold_left _ ls _) as [[secs cur] sites]. reflexivity.
Qed.

Lemma list_sections_step_names (py_isupper : pystr -> bool) (acc : ls_state) (l : pystr) :
  ls_inv acc ->
  ls_inv (list_sections_step py_isupper acc l)
  /\ map fst (ls_final (list_sections_step py_isupper acc l))
     = map fst (ls_final acc) ++ header_name py_isupper l.
Proof.
  destruct acc as [[secs cur] sites]. intros Hinv.
  unfold list_sections_step, header_name.
  destruct (header_shaped (py_strip l)).
  - destruct (truthy_str (py_strip (py_strip_hash (py_strip l)))
              && py_isupper (py_strip (py_strip_hash (py_strip l)))) eqn:V.
    + apply andb_true_iff in V. destruct V as [V _].
      destruct cur as [cs|]; simpl in Hinv |- *.
      * rewrite Hinv. simpl. rewrite V. split; [reflexivity|].
        rewrite !map_app. simpl. rewrite <- app_assoc. reflexivity.
      * rewrite V. split; [reflexivity|]. rewrite map_app. reflexivity.
    + rewrite app_nil_r. split; [exact Hinv | reflexivity].
  - rewrite app_nil_r.
    destruct (list_sections_site (py_strip l)) as [site|]; [|split; [exact Hinv | reflexivity]].
    destruct (truthy_opt cur); [|split; [exact Hinv | reflexivity]].
    destruct cur as [cs|]; simpl in *; [rewrite Hinv|];
      (split; [first [assumption | exact I | reflexivity] | rewrite ?map_app; reflexivity]).
Qed.

Lemma fold_list_sections_names (py_isupper : pystr -> bool) (ls : list pystr) :
  forall acc, ls_inv acc ->
  map fst (ls_final (fold_left (list_sections_step py_isupper) ls acc))
  = map fst (ls_final acc) ++ section_names py_isupper ls.
Proof.
  induction ls as [|l ls IH]; intros acc Hinv; simpl.
  - rewrite app_nil_r. reflexivity.
  - destruct (list_sections_step_names py_isupper acc l Hinv) as [Hinv' E].
    rewrite (IH _ Hinv'), E, app_assoc. reflexivity.
Qed.

(** [list_sections] reports the sections in the order of their headers,
    one per header-shaped line with a non-empty upper-case name (a repeated
    header is reported again), and prints "No sections found" exactly when
    there is no such line. *)
Theorem list_sections_names (py_isupper : pystr -> bool) (st : state) :
  map fst (list_sections_result py_isupper (lines st)) = section_names py_isupper (lines st)
  /\ list_sections py_isupper st
     = emit (match section_names py_isupper (lines st) with
             | [] => MsgNoSectionsFound
             | _ => MsgSectionsFound (list_sections_result py_isupper (lines st))
             end) st.
Proof.
  assert (E : map fst (list_sections_result py_isupper (lines st))
              = section_names py_isupper (lines st)).
  { rewrite list_sections_result_final, fold_list_sections_names by exact I. reflexivity. }
  split; [exact E|].
  unfold list_sections.
  destruct (list_sections_result py_isupper (lines st)) as [|p ps];
    destruct (section_names py_isupper (lines st)); try discriminate; reflexivity.
Qed.

Lemma search_loop_some (q : pystr) (ls : list pystr) :
  forall i found st,
  search_loop (Some q) i ls found st
  = Ok (found || existsb (contains q) ls,
        mkState (path st) (disk st) (backup st) (lines st)
          (trace st ++ map (fun p => EPrint (MsgLine (fst p) (snd p)))
                         (filter (fun p => contains q (snd p))
                            (combine (seq i (List.length ls)) ls)))).
Proof.
  induction ls as [|l ls IH]; intros i found st; simpl.
  - rewrite orb_false_r, app_nil_r. destruct st; reflexivity.
  - destruct (contains q l); simpl; rewrite IH; simpl.
    + rewrite orb_true_r, <- app_assoc. reflexivity.
    + reflexivity.
Qed.

(** With a query, [search_entries] never raises: it prints, in order, the
    1-based number and text of every line containing the query, then "No
    results" if there was none, and changes nothing else. *)
Theorem search_entries_some (q : pystr) (st : state) :
  search_entries (Some q) st
  = Ok (mkState (path st) (disk st) (backup st) (lines st)
          (trace st
           ++ map (fun p => EPrint (MsgLine (fst p) (snd p)))
                  (filter (fun p => contains q (snd p))
                     (combine (seq 1 (List.length (lines st))) (lines st)))
           ++ (if existsb (contains q) (lines st) then []
               else [EPrint (MsgNoResults (Some q))]))).
Proof.
  unfold search_entries. rewrite search_loop_some. simpl.
  destruct (existsb (contains q) (lines st)).
  - rewrite app_nil_r. reflexivity.
  - unfold emit. simpl. rewrite <- app_assoc. reflexivity.
Qed.

Lemma toggle_walk_zero (site : option pystr) (enable : bool) (ls : list pystr) :
  forall cur, snd (toggle_walk site enable cur ls) = 0%nat ->
  fst (toggle_walk site enable cur ls) = ls.
Proof.
  induction ls as [|l ls IH]; intros cur H; [reflexivity|].
  cbn [toggle_walk] in *. destruct (header_shaped (py_strip l)); [reflexivity|].
  destruct (toggle_site (py_strip l)) as [name|].
  - specialize (IH (Some name)).
    destruct (toggle_walk site enable (Some name) ls) as [rest k].
    simpl in *. rewrite (IH H). reflexivity.
  - specialize (IH cur).
    destruct (toggle_walk site enable cur ls) as [rest k].
    repeat match goal with
           | H : context [if ?b then _ else _] |- _ => destruct b
           end; simpl in *; try discriminate; rewrite (IH H); reflexivity.
Qed.

(** Once the commit is confirmed, the baseline after [toggle_section] is
    the document up to and including the section header, followed by the
    rest of the document as the walk over it rewrote it, whether or not
    anything was toggled. *)
Theorem toggle_section_confirmed_lines (py_lower py_upper : pystr -> pystr)
    (ans section : pystr) (site : option pystr) (enable : bool) (st : state) (i : nat) :
  confirms py_lower ans = true ->
  find_header_from (py_upper section) 0 (lines st) = Some i ->
  lines (snd (toggle_section py_lower py_upper ans section site enable st))
  = firstn (S i) (lines st) ++ fst (toggle_walk site enable None (skipn (S i) (lines st))).
Proof.
  intros Hc F. pose proof (find_header_from_spec _ _ _ _ F) as Hi. simpl in Hi.
  pose proof (toggle_walk_zero site enable (skipn (S i) (lines st)) None) as Z.
  unfold toggle_section. rewrite F.
  destruct (toggle_walk site enable None (skipn (S i) (lines st))) as [r k].
  simpl in Z. cbn beta iota zeta.
  assert (Hne : firstn (S i) (lines st) ++ r <> []).
  { destruct (lines st); [simpl in Hi; lia | discriminate]. }
  destruct (Nat.ltb_spec 0 k) as [K|K]; cbn [snd].
  - destruct (list_eq_dec (list_eq_dec N.eq_dec) (firstn (S i) (lines st) ++ r) (lines st))
      as [Eq|Ne].
    + destruct (write_file_lines py_lower ans _ st Hne) as [E|E]; rewrite E;
        [symmetry; exact Eq | reflexivity].
    + exact (proj2 (proj2 (write_file_confirmed py_lower ans _ st Hne Ne Hc))).
  - replace k with 0%nat in Z by lia. rewrite (Z eq_refl), firstn_skipn. reflexivity.
Qed.

Lemma toggle_section_confirmed_lines_witness :
  confirms ascii_lower (u "y") = true
  /\ find_header_from (ascii_upper (u "work")) 0 (lines work_state) = Some 0%nat
  /\ lines (snd (toggle_section ascii_lower ascii_upper (u "y") (u "work") None false work_state))
     = firstn 1 (lines work_state)
       ++ fst (toggle_walk None false None (skipn 1 (lines work_state))).
Proof.
  assert (H1 : confirms ascii_lower (u "y") = true) by reflexivity.
  assert (H2 : find_header_from (ascii_upper (u "work")) 0 (lines work_state) = Some 0%nat)
    by reflexivity.
  split; [exact H1|]. split; [exact H2|].
  exact (toggle_section_confirmed_lines ascii_lower ascii_upper (u "y") (u "work") None false
           work_state 0 H1 H2).
Defined.

Lemma toggle_walk_keep (site : option pystr) (enable : bool) (cur : option pystr)
    (l : pystr) (ls : list pystr) :
  header_shaped (py_strip l) = false -> toggle_site (py_strip l) = None ->
  negb (truthy_str (py_strip l)) || toggle_site_test (py_strip l) = true ->
  toggle_walk site enable cur (l :: ls)
  = (l :: fst (toggle_walk site enable cur ls), snd (toggle_walk site enable cur ls)).
Proof.
  intros H1 H2 H3. cbn [toggle_walk]. rewrite H1, H2, H3.
  destruct (toggle_walk site enable cur ls); reflexivity.
Qed.

Lemma toggle_walk_site (site : option pystr) (enable : bool) (cur : option pystr)
    (l : pystr) (ls : list pystr) (name : pystr) :
  header_shaped (py_strip l) = false -> toggle_site (py_strip l) = Some name ->
  toggle_walk site enable cur (l :: ls)
  = (l :: fst (toggle_walk site enable (Some name) ls),
     snd (toggle_walk site enable (Some name) ls)).
Proof.
  intros H1 H2. cbn [toggle_walk]. rewrite H1, H2.
  destruct (toggle_walk site enable (Some name) ls); reflexivity.
Qed.

Lemma toggle_walk_disable_line (cur : option pystr) (l : pystr) (ls : list pystr) :
  header_shaped (py_strip l) = false -> toggle_site (py_strip l) = None ->
  negb (truthy_str (py_strip l)) || toggle_site_test (py_strip l) = false ->
  startswith (py_strip l) [HASH] = false ->
  toggle_walk None false cur (l :: ls)
  = ((HASH :: SPACE :: l) :: fst (toggle_walk None false cur ls),
     S (snd (toggle_walk None false cur ls))).
Proof.
  intros H1 H2 H3 H4. cbn [toggle_walk]. rewrite H1, H2, H3.
  cbn [site_selected andb negb]. rewrite H4.
  destruct (toggle_walk None false cur ls); reflexivity.
Qed.

Lemma toggle_walk_enable_line (cur : option pystr) (l : pystr) (ls : list pystr) :
  header_shaped (py_strip l) = false -> toggle_site (py_strip l) = None ->
  negb (truthy_str (py_strip l)) || toggle_site_test (py_strip l) = false ->
  startswith (py_strip l) [HASH] = true ->
  toggle_walk None true cur (l :: ls)
  = (re_sub_hash l :: fst (toggle_walk None true cur ls),
     S (snd (toggle_walk None true cur ls))).
Proof.
  intros H1 H2 H3 H4. cbn [toggle_walk]. rewrite H1, H2, H3.
  cbn [site_selected andb]. rewrite H4.
  destruct (toggle_walk None true cur ls); reflexivity.
Qed.

Lemma lstrip_if_app (p : pychar -> bool) (x y : pystr) :
  (exists c, In c x /\ p c = false) -> lstrip_if p (x ++ y) = lstrip_if p x ++ y.
Proof.
  induction x as [|a x IH]; intros [c [Hc Hp]]; [destruct Hc|].
  simpl. destruct (p a) eqn:Pa; [|reflexivity].
  apply IH. destruct Hc as [->|Hc]; [congruence|]. exists c. auto.
Qed.

Lemma py_strip_disabled_digit (d : pychar) (l : pystr) :
  is_space d = false ->
  py_strip (HASH :: SPACE :: d :: l) = HASH :: SPACE :: py_strip (d :: l).
Proof.
  intros Hd. unfold py_strip.
  assert (A1 : lstrip_if is_space (HASH :: SPACE :: d :: l) = HASH :: SPACE :: d :: l)
    by reflexivity.
  assert (A2 : lstrip_if is_space (d :: l) = d :: l) by (simpl; rewrite Hd; reflexivity).
  rewrite A1, A2.
  replace (rev (HASH :: SPACE :: d :: l)) with (rev (d :: l) ++ [SPACE; HASH])
    by (simpl; rewrite <- !app_assoc; reflexivity).
  rewrite lstrip_if_app.
  - rewrite rev_app_distr. reflexivity.
  - exists d. split; [|exact Hd]. simpl. apply in_or_app. right. left. reflexivity.
Qed.

Lemma endswith_cons2 (a b : pychar) (t : pystr) :
  t <> [] -> endswith (a :: b :: t) [HASH] = endswith t [HASH].
Proof.
  intros Ht. unfold endswith.
  assert (R : rev t <> []) by (intros E; apply Ht; rewrite <- (rev_involutive t), E; reflexivity).
  cbn [rev]. destruct (rev t) as [|x xs]; [contradiction | reflexivity].
Qed.

Lemma starts_with_digit_cons (l : pystr) :
  starts_with_digit l = true -> exists d l', l = d :: l' /\ In d digits.
Proof.
  unfold starts_with_digit. intros H. apply existsb_exists in H.
  destruct H as [d [Hd Hs]]. destruct l as [|c l']; [discriminate|].
  simpl in Hs. rewrite andb_true_r in Hs. apply N.eqb_eq in Hs. subst c.
  exists d, l'. auto.
Qed.

Lemma digit_facts (d : pychar) (r : pystr) :
  In d digits ->
  is_space d = false /\ toggle_site_test (HASH :: SPACE :: d :: r) = false
  /\ startswith (d :: r) [HASH] = false.
Proof.
  intros Hd. simpl in Hd.
  repeat (destruct Hd as [<- | Hd]; [split; [reflexivity | split; reflexivity] |]).
  destruct Hd.
Qed.

(** A section body through a disabling walk and then an enabling walk. *)
Lemma toggle_walk_disable_enable (mid post : list pystr) :
  Forall (fun l => plain_body_line l = true) mid ->
  (post = [] \/ exists h p, post = h :: p /\ header_shaped (py_strip h) = true) ->
  forall cur cur',
    fst (toggle_walk None true cur (fst (toggle_walk None false cur' (mid ++ post))))
    = mid ++ post.
Proof.
  intros Hmid Hpost. induction Hmid as [|l mid Hl Hmid IH]; intros cur cur'.
  - destruct Hpost as [->|[h [p [-> Hh]]]]; [reflexivity|].
    simpl app. cbn [toggle_walk]. rewrite Hh. cbn [fst toggle_walk]. rewrite Hh. reflexivity.
  - simpl app. unfold plain_body_line in Hl.
    destruct (truthy_str (py_strip l)) eqn:Tr.
    + simpl negb in Hl. rewrite orb_false_l in Hl.
      apply orb_true_iff in Hl. destruct Hl as [Hl|Hl].
      * apply andb_true_iff in Hl. destruct Hl as [Hh Ht].
        apply negb_true_iff in Hh.
        assert (Ts : toggle_site (py_strip l)
                     = Some (py_strip (before_hash (drop1 (py_strip l)))))
          by (unfold toggle_site; rewrite Ht; reflexivity).
        rewrite (toggle_walk_site _ _ _ _ _ _ Hh Ts). cbn [fst].
        rewrite (toggle_walk_site _ _ _ _ _ _ Hh Ts). cbn [fst]. rewrite IH. reflexivity.
      * apply andb_true_iff in Hl. destruct Hl as [Hd He]. apply negb_true_iff in He.
        destruct (starts_with_digit_cons l Hd) as [d [l' [-> Hdig]]].
        destruct (py_strip_cons d l' (proj1 (digit_facts d [] Hdig))) as [r Hr].
        destruct (digit_facts d r Hdig) as [Sp [Tt Sw]].
        assert (Hh : header_shaped (py_strip (d :: l')) = false)
          by (unfold header_shaped; rewrite Hr, Sw; reflexivity).
        assert (Tt1 : toggle_site_test (py_strip (d :: l')) = false)
          by (unfold toggle_site_test; rewrite Hr, Sw; reflexivity).
        assert (Ts : toggle_site (py_strip (d :: l')) = None)
          by (unfold toggle_site; rewrite Tt1; reflexivity).
        assert (C1 : negb (truthy_str (py_strip (d :: l')))
                     || toggle_site_test (py_strip (d :: l')) = false)
          by (rewrite Tr, Tt1; reflexivity).
        rewrite (toggle_walk_disable_line _ _ _ Hh Ts C1) by (rewrite Hr; exact Sw).
        cbn [fst].
        pose proof (py_strip_disabled_digit d l' Sp) as St. rewrite Hr in St.
        assert (Hh2 : header_shaped (py_strip (HASH :: SPACE :: d :: l')) = false).
        { rewrite St. unfold header_shaped.
          rewrite endswith_cons2 by discriminate. rewrite <- Hr, He.
          rewrite andb_false_r. reflexivity. }
        assert (Ts2 : toggle_site (py_strip (HASH :: SPACE :: d :: l')) = None)
          by (unfold toggle_site; rewrite St, Tt; reflexivity).
        assert (C2 : negb (truthy_str (py_strip (HASH :: SPACE :: d :: l')))
                     || toggle_site_test (py_strip (HASH :: SPACE :: d :: l')) = false)
          by (rewrite St, Tt; reflexivity).
        rewrite (toggle_walk_enable_line _ _ _ Hh2 Ts2 C2) by (rewrite St; reflexivity).
        cbn [fst]. rewrite IH. f_equal. simpl. rewrite Sp. reflexivity.
    + assert (E : py_strip l = []) by (destruct (py_strip l); [reflexivity | discriminate]).
      assert (Hh : header_shaped (py_strip l) = false) by (rewrite E; reflexivity).
      assert (Ts : toggle_site (py_strip l) = None) by (rewrite E; reflexivity).
      assert (C : negb (truthy_str (py_strip l)) || toggle_site_test (py_strip l) = true)
        by (rewrite E; reflexivity).
      rewrite (toggle_walk_keep _ _ _ _ _ Hh Ts C). cbn [fst].
      rewrite (toggle_walk_keep _ _ _ _ _ Hh Ts C). cbn [fst]. rewrite IH. reflexivity.
Qed.

Lemma firstn_skipn_app {A : Type} (x y : list A) :
  firstn (List.length x) (x ++ y) = x /\ skipn (List.length x) (x ++ y) = y.
Proof.
  split.
  - rewrite firstn_app, firstn_all, Nat.sub_diag. simpl. apply app_nil_r.
  - rewrite skipn_app, skipn_all, Nat.sub_diag. reflexivity.
Qed.

(** [disable-section] then [enable-section] of a whole section, both
    confirmed, give back the baseline, when every line of the section body
    is blank, a site comment, or an entry starting with a digit and not
    ending with ['#']. *)
Theorem disable_enable_section (py_lower py_upper : pystr -> pystr) (ans ans2 section : pystr)
    (st : state) (pre : list pystr) (header : pystr) (mid post : list pystr) :
  confirms py_lower ans = true -> confirms py_lower ans2 = true ->
  find_header_from (py_upper section) 0 (lines st) = Some (List.length pre) ->
  lines st = pre ++ header :: mid ++ post ->
  Forall (fun l => plain_body_line l = true) mid ->
  (post = [] \/ exists h p, post = h :: p /\ header_shaped (py_strip h) = true) ->
  lines (snd (toggle_section py_lower py_upper ans2 section None true
                (snd (toggle_section py_lower py_upper ans section None false st))))
  = lines st.
Proof.
  intros Hc Hc2 F Hl Hmid Hpost.
  set (i := List.length pre) in F.
  assert (Hsplit : lines st = (pre ++ [header]) ++ mid ++ post)
    by (rewrite Hl, <- app_assoc; reflexivity).
  assert (Hlen : List.length (pre ++ [header]) = S i)
    by (unfold i; rewrite length_app; simpl; lia).
  destruct (firstn_skipn_app (pre ++ [header]) (mid ++ post)) as [Fi Sk].
  rewrite Hlen, <- Hsplit in Fi, Sk.
  pose proof (toggle_section_confirmed_lines py_lower py_upper ans section None false st i Hc F)
    as L1.
  set (st1 := snd (toggle_section py_lower py_upper ans section None false st)) in *.
  rewrite Sk, Fi in L1.
  assert (F1 : find_header_from (py_upper section) 0 (lines st1) = Some i).
  { rewrite L1, <- Fi. pose proof (find_header_from_prefix _ _ 0 i
      (fst (toggle_walk None false None (mid ++ post))) F) as P.
    rewrite Nat.sub_0_r in P. exact P. }
  rewrite (toggle_section_confirmed_lines py_lower py_upper ans2 section None true st1 i Hc2 F1).
  destruct (firstn_skipn_app (pre ++ [header]) (fst (toggle_walk None false None (mid ++ post))))
    as [Fi1 Sk1].
  rewrite Hlen, <- L1 in Fi1, Sk1. rewrite Fi1, Sk1.
  rewrite (toggle_walk_disable_enable mid post Hmid Hpost None None).
  rewrite Hsplit. reflexivity.
Qed.

Lemma disable_enable_section_witness :
  confirms ascii_lower (u "y") = true
  /\ find_header_from (ascii_upper (u "work")) 0 (lines two_state)
     = Some (List.length (@nil pystr))
  /\ lines two_state = [] ++ u "# WORK #" :: [u "127.0.0.1" ++ TAB :: u "a.test"]
                        ++ [u "# HOME #"; u "10.0.0.1" ++ TAB :: u "b.test"]
  /\ lines (snd (toggle_section ascii_lower ascii_upper (u "y") (u "work") None true
                  (snd (toggle_section ascii_lower ascii_upper (u "y") (u "work") None false
                          two_state))))
     = lines two_state.
Proof.
  assert (H1 : confirms ascii_lower (u "y") = true) by reflexivity.
  assert (H2 : find_header_from (ascii_upper (u "work")) 0 (lines two_state)
               = Some (List.length (@nil pystr))) by reflexivity.
  assert (H3 : lines two_state = [] ++ u "# WORK #" :: [u "127.0.0.1" ++ TAB :: u "a.test"]
                                   ++ [u "# HOME #"; u "10.0.0.1" ++ TAB :: u "b.test"])
    by reflexivity.
  assert (H4 : Forall (fun l => plain_body_line l = true) [u "127.0.0.1" ++ TAB :: u "a.test"])
    by (constructor; [reflexivity | constructor]).
  assert (H5 : [u "# HOME #"; u "10.0.0.1" ++ TAB :: u "b.test"] = []
               \/ exists h p, [u "# HOME #"; u "10.0.0.1" ++ TAB :: u "b.test"] = h :: p
                              /\ header_shaped (py_strip h) = true)
    by (right; eexists _, _; split; reflexivity).
  split; [exact H1|]. split; [exact H2|]. split; [exact H3|].
  exact (disable_enable_section ascii_lower ascii_upper (u "y") (u "y") (u "work") two_state
           [] (u "# WORK #") [u "127.0.0.1" ++ TAB :: u "a.test"]
           [u "# HOME #"; u "10.0.0.1" ++ TAB :: u "b.test"] H1 H1 H2 H3 H4 H5).
Defined.
